(** * NegotiBot relay core and text-generation service

    A shallow embedding of [backend/main.py] (session table, relay
    handlers, session lifecycle) and [backend/gemini_service.py]
    (approach parsing, prompt construction, keyword fallback), followed by
    the properties of the relay that the specification states.

    Conventions.
    - Python [str] is [string] (a byte string, UTF-8 for the non-ASCII
      characters of the reply templates).
    - Python [int] is [Z].
    - A Python [dict] with string keys that is only looked up is a
      [gmap string _]; a dict that is serialised (an outbound payload)
      is a [json] object, an ordered association list.
    - Code that can raise runs in the monad [M]: a state transformer over
      the process state [World] whose result is [Ok v] or [Raise e]. *)

From Stdlib Require Import ZArith Ascii String List Lia Sorting.Sorted.
From Stdlib Require Import DecimalString DecimalPos DecimalN.
From stdpp Require Import base option list gmap strings.

Local Open Scope string_scope.
Local Open Scope list_scope.
Local Open Scope Z_scope.

(** ** Python built-ins used by the source *)

Module Py.

(** [chr(n)] for [n < 256]. *)
Definition chr (n : nat) : string := String (ascii_of_nat n) EmptyString.

(** The double quote character, kept out of literals. *)
Definition dquote : string := chr 34.

(** The line feed of the prompt template. *)
Definition nl : string := chr 10.

Definition is_upper (c : ascii) : bool :=
  let n := nat_of_ascii c in (65 <=? n)%nat && (n <=? 90)%nat.

Definition is_lower (c : ascii) : bool :=
  let n := nat_of_ascii c in (97 <=? n)%nat && (n <=? 122)%nat.

Definition lower_char (c : ascii) : ascii :=
  if is_upper c then ascii_of_nat (nat_of_ascii c + 32) else c.

Definition upper_char (c : ascii) : ascii :=
  if is_lower c then ascii_of_nat (nat_of_ascii c - 32) else c.

(** [s.lower()]: the letters A-Z are folded; every other byte is kept.
    This is [str.lower] on ASCII text.  The three approach names are
    ASCII and no non-ASCII character lower-cases to one of their
    letters, so parsing an approach agrees with Python on every
    input.  The keyword tests of the fallback agree with Python on ASCII
    text only: Python lower-cases U+0130 to an [i] with a combining dot
    and U+212A to [k]. *)
Fixpoint lower (s : string) : string :=
  match s with
  | EmptyString => EmptyString
  | String c s' => String (lower_char c) (lower s')
  end.

(** [s.upper()] on ASCII text: the letters a-z are folded; every other
    byte is kept, where Python maps more (U+00DF to [SS], U+017F to
    [S]). *)
Fixpoint upper (s : string) : string :=
  match s with
  | EmptyString => EmptyString
  | String c s' => String (upper_char c) (upper s')
  end.

(** [needle in hay] on strings. *)
Fixpoint contains (needle hay : string) : bool :=
  if String.prefix needle hay then true
  else match hay with
       | EmptyString => false
       | String _ hay' => contains needle hay'
       end.

(** ASCII white space as [str.strip] sees it; Python strips the other
    Unicode white space as well (U+0085, U+00A0, U+2028, U+3000), so
    [strip] below is [str.strip] on text whose ends are ASCII. *)
Definition is_space (c : ascii) : bool :=
  let n := nat_of_ascii c in
  ((9 <=? n)%nat && (n <=? 13)%nat) || ((28 <=? n)%nat && (n <=? 32)%nat).

Fixpoint lstrip (s : string) : string :=
  match s with
  | EmptyString => EmptyString
  | String c s' => if is_space c then lstrip s' else s
  end.

Fixpoint rstrip (s : string) : string :=
  match s with
  | EmptyString => EmptyString
  | String c s' =>
      match rstrip s' with
      | EmptyString => if is_space c then EmptyString else String c EmptyString
      | r => String c r
      end
  end.

(** [s.strip()]. *)
Definition strip (s : string) : string := rstrip (lstrip s).

(** [str(n)] for a non-negative [n]. *)
Definition str_nat (n : N) : string :=
  NilZero.string_of_uint (N.to_uint n).

(** Groups of three digits from the right, joined by commas; [s] holds
    the digits in reverse. *)
Fixpoint group3_rev (s : list ascii) : list ascii :=
  match s with
  | a :: b :: c :: ((_ :: _) as rest) =>
      a :: b :: c :: ","%char :: group3_rev rest
  | _ => s
  end.

(** [format(n, ',')], the [{n:,}] of the f-strings. *)
Definition format_comma (n : Z) : string :=
  let digits := list_ascii_of_string (str_nat (Z.abs_N n)) in
  let grouped := string_of_list_ascii (rev (group3_rev (rev digits))) in
  if n <? 0 then "-" +:+ grouped else grouped.

(** [l[-n:]]: the last [n] elements, or all of [l] when it is shorter. *)
Definition last_n {A} (n : nat) (l : list A) : list A :=
  drop (length l - n) l.

(** *** [int(x * 1.15)] in IEEE-754 binary64

    The product is computed on doubles.  [round53] rounds an integer to
    53 significant bits, ties to even (the conversion of an [int] to a
    [float], and the rounding of an exact product scaled by [2^52]);
    [m_1_15] is the significand of the double nearest to 1.15, which is
    [m_1_15 / 2^52]. *)

Definition round53 (n : Z) : Z :=
  let a := Z.abs n in
  if a <? 2 ^ 53 then n
  else
    let e := Z.log2 a - 52 in
    let q := a / 2 ^ e in
    let r := a mod 2 ^ e in
    let half := 2 ^ (e - 1) in
    let q' := if (half <? r) || ((r =? half) && Z.odd q) then q + 1 else q in
    Z.sgn n * (q' * 2 ^ e).

Definition m_1_15 : Z := 5179139571476070.

(** The largest finite double is below [2^1024]; a result that rounds
    to it or beyond overflows. *)
Definition float_overflows (v : Z) : bool := 2 ^ 1024 <=? Z.abs v.

(** [int(x * 1.15)], or [None] when Python raises [OverflowError]. *)
Definition int_mul_1_15 (x : Z) : option Z :=
  let fx := round53 x in
  if float_overflows fx then None
  else
    let p := round53 (fx * m_1_15) in
    if float_overflows (Z.quot p (2 ^ 52)) then None
    else Some (Z.quot p (2 ^ 52)).

End Py.

(** ** Exceptions and results *)

(** The exceptions the embedded code raises or lets through.  [ApiError]
    stands for whatever the generation client raises (network failure,
    deadline exceeded, blocked response). *)
Inductive exn :=
| ValueError (msg : string)
| TypeError (msg : string)
| AttributeError (msg : string)
| OverflowError
| ApiError (msg : string)
| HTTPException (status_code : Z) (detail : exn_detail)
with exn_detail :=
| Detail (text : string)
| StrOf (e : exn).

(** The result of a call: a returned value or a raised exception. *)
Inductive outcome (A : Type) :=
| Ok (v : A)
| Raise (e : exn).
Arguments Ok {A} v.
Arguments Raise {A} e.

Definition is_ok {A} (r : outcome A) : bool :=
  match r with Ok _ => true | Raise _ => false end.

(** ** Data model ([models.py]) *)

(** Modelled from the spec: [models.py] is not among the sources.  The
    approach is the closed set of section 6, assertive, diplomatic and
    considerate, an [Enum] whose values are the lower-case names (the
    source calls [NegotiationApproach(approach.lower())] and reads
    [approach.value]). *)
Inductive NegotiationApproach := ASSERTIVE | DIPLOMATIC | CONSIDERATE.

Definition approach_value (a : NegotiationApproach) : string :=
  match a with
  | ASSERTIVE => "assertive"
  | DIPLOMATIC => "diplomatic"
  | CONSIDERATE => "considerate"
  end.

(** [NegotiationApproach(v)]: the member whose value is [v]; Python
    raises [ValueError] when there is none. *)
Definition NegotiationApproach_of_value (v : string) : option NegotiationApproach :=
  if String.eqb v "assertive" then Some ASSERTIVE
  else if String.eqb v "diplomatic" then Some DIPLOMATIC
  else if String.eqb v "considerate" then Some CONSIDERATE
  else None.

(** The [approach] argument: "Can be string or NegotiationApproach enum". *)
Inductive approach_arg :=
| AStr (s : string)
| AEnum (a : NegotiationApproach).

(** Modelled from the spec: the product descriptor, with the attributes
    the source reads. *)
Module Product.
Record t := mk {
  id : string;
  title : string;
  price : Z;
  condition : string;
  seller_name : string;
  location : string
}.
End Product.

(** Modelled from the spec: the Message record, with the fields the
    source sets.  [timestamp] is a reading of the wall clock,
    [datetime.now()], in microseconds. *)
Module ChatMessage.
Record t := mk {
  id : string;
  session_id : string;
  sender : string;
  content : string;
  timestamp : Z;
  sender_type : string
}.
End ChatMessage.

(** Modelled from the spec: the negotiation parameters. *)
Module NegotiationParams.
Record t := mk {
  product_id : string;
  target_price : Z;
  max_budget : Z;
  approach : approach_arg
}.
End NegotiationParams.

(** [outcome] is a monad: a raised exception skips the rest. *)
#[global] Instance outcome_ret : MRet outcome := fun A v => Ok v.
#[global] Instance outcome_bind : MBind outcome := fun A B f r =>
  match r with
  | Ok v => f v
  | Raise e => Raise e
  end.

(** ** The text-generation service ([gemini_service.py]) *)

Module GeminiAIService.

(** [self.model] is [None] when [setup_client] failed.  Otherwise it is
    the client, seen through the one use the source makes of it:
    [generate_content(prompt).text], which yields text or raises. *)
Record t := mk {
  model : option (string -> outcome string)
}.

(** "Convert string to enum if needed". *)
Definition to_enum (approach : approach_arg) : NegotiationApproach :=
  match approach with
  | AStr s =>
      match NegotiationApproach_of_value (Py.lower s) with
      | Some a => a
      | None => DIPLOMATIC
      end
  | AEnum a => a
  end.

(** [product.<name>]; [product] is [None] when the lookup found none. *)
Definition getattr {A} (product : option Product.t) (name : string)
    (f : Product.t -> A) : outcome A :=
  match product with
  | Some p => Ok (f p)
  | None => Raise (AttributeError name)
  end.

Definition is_seller (msg : ChatMessage.t) : bool :=
  String.eqb (ChatMessage.sender msg) "seller".

(** [₹{n:,}]. *)
Definition rupees (n : Z) : string := "₹" +:+ Py.format_comma n.

Record strategy := mk_strategy {
  style : string;
  tactics : string;
  personality : string
}.

Definition approach_strategies (a : NegotiationApproach) : strategy :=
  match a with
  | ASSERTIVE =>
      {| style := "direct and confident";
         tactics := "Make firm offers, emphasize market research, be persistent but polite";
         personality := "business-like and decisive" |}
  | DIPLOMATIC =>
      {| style := "balanced and respectful";
         tactics := "Find mutual benefits, acknowledge seller's position, propose win-win solutions";
         personality := "professional and understanding" |}
  | CONSIDERATE =>
      {| style := "empathetic and budget-conscious";
         tactics := "Explain budget constraints, show genuine interest, be patient";
         personality := "humble and appreciative" |}
  end.

(** The loop that builds [conversation_history]. *)
Fixpoint conversation_lines (msgs : list ChatMessage.t) : string :=
  match msgs with
  | [] => ""
  | msg :: rest =>
      let sender_label := if is_seller msg then "Seller" else "You (Buyer)" in
      sender_label +:+ ": " +:+ ChatMessage.content msg +:+ Py.nl
        +:+ conversation_lines rest
  end.

Definition _build_negotiation_context (approach : NegotiationApproach)
    (target_price max_budget : Z) (chat_history : list ChatMessage.t)
    (product : option Product.t) : outcome string :=
  let seller_messages := List.filter is_seller chat_history in
  let last_seller_message :=
    match last seller_messages with
    | Some m => ChatMessage.content m
    | None => ""
    end in
  let conversation_history := conversation_lines (Py.last_n 6 chat_history) in
  let strategy := approach_strategies approach in
  title ← getattr product "title" Product.title;
  price ← getattr product "price" Product.price;
  condition ← getattr product "condition" Product.condition;
  seller_name ← getattr product "seller_name" Product.seller_name;
  location ← getattr product "location" Product.location;
  Ok (String.concat Py.nl [
    "";
    "You are an AI negotiation agent representing a buyer who wants to purchase: " +:+ title;
    "";
    "PRODUCT DETAILS:";
    "- Current asking price: " +:+ rupees price;
    "- Your target price: " +:+ rupees target_price;
    "- Your maximum budget: " +:+ rupees max_budget;
    "- Product condition: " +:+ condition;
    "- Seller: " +:+ seller_name;
    "- Location: " +:+ location;
    "";
    "NEGOTIATION APPROACH: " +:+ Py.upper (approach_value approach);
    "- Style: " +:+ style strategy;
    "- Tactics: " +:+ tactics strategy;
    "- Personality: " +:+ personality strategy;
    "";
    "CONVERSATION HISTORY:";
    conversation_history;
    "";
    "LATEST SELLER MESSAGE: " +:+ Py.dquote +:+ last_seller_message +:+ Py.dquote;
    "";
    "INSTRUCTIONS:";
    "1. Respond as a human buyer (never mention you're an AI)";
    "2. Use the " +:+ approach_value approach +:+ " negotiation approach consistently";
    "3. Stay within your budget constraints (max " +:+ rupees max_budget +:+ ")";
    "4. Work towards your target price of " +:+ rupees target_price;
    "5. Keep responses conversational and natural (50-80 words)";
    "6. Include relevant details about pickup/payment when appropriate";
    "7. Be respectful but persistent in negotiations";
    "8. If the seller's price is too high, explain your position clearly";
    "9. If a good deal is reached, move towards closing (exchange contact details)";
    "";
    "CURRENT SITUATION ANALYSIS:";
    "- Current offer/price being discussed: Look at the conversation";
    "- Progress towards target: Calculate if you're getting closer";
    "- Seller's flexibility: Assess from their responses";
    "";
    "Generate your next response as the buyer:";
    ""
  ]).

(** The call runs in the executor; whatever it raises is printed and
    raised again. *)
Definition _call_gemini_api (self : t) (prompt : string) : outcome string :=
  match model self with
  | Some generate_content =>
      text ← generate_content prompt;
      Ok (Py.strip text)
  | None => Raise (AttributeError "generate_content")
  end.

(** "Fallback responses when AI is not available".  The keyword tests
    follow the source's [if]/[elif] chain in order. *)
Definition _get_fallback_response (approach : approach_arg) (target_price : Z)
    (chat_history : list ChatMessage.t) (product : option Product.t)
    : outcome string :=
  let approach := to_enum approach in
  let seller_messages := List.filter is_seller chat_history in
  let seller_name := getattr product "seller_name" Product.seller_name in
  match last seller_messages with
  | None =>
      (* Opening message *)
      match approach with
      | ASSERTIVE =>
          name ← seller_name;
          Ok ("Hello " +:+ name +:+ "! I'm interested in your listing. Based on current market rates, I'd like to offer "
                +:+ rupees target_price +:+ ". Is this acceptable?")
      | DIPLOMATIC =>
          name ← seller_name;
          Ok ("Good day " +:+ name +:+ "! I'm very interested in your product. Would you consider an offer of "
                +:+ rupees target_price +:+ "? I believe it's a fair price given the current market.")
      | CONSIDERATE =>
          name ← seller_name;
          Ok ("Hi " +:+ name +:+ "! I'm really interested in your listing. My budget is a bit tight at "
                +:+ rupees target_price +:+ ". Would this work for you?")
      end
  | Some last_seller =>
      (* Response to seller *)
      let last_message := Py.lower (ChatMessage.content last_seller) in
      let has kw := Py.contains kw last_message in
      if has "hi" || has "hello" || has "available" then
        (* Greeting/availability check *)
        match approach with
        | ASSERTIVE =>
            name ← seller_name;
            Ok ("Hello " +:+ name +:+ "! Yes, I'm very interested. I can offer "
                  +:+ rupees target_price +:+ " for immediate purchase. When can we meet?")
        | DIPLOMATIC =>
            name ← seller_name;
            Ok ("Hi there " +:+ name +:+ "! Yes, I'm interested in your listing. The item looks great. Would "
                  +:+ rupees target_price +:+ " work for you?")
        | CONSIDERATE =>
            name ← seller_name;
            Ok ("Hello " +:+ name +:+ "! Yes, I'm interested. I'm hoping to stay within "
                  +:+ rupees target_price +:+ " if possible. Could we work something out?")
        end
      else if has "price" || has "cost" || has "amount" then
        (* Price discussion *)
        match approach with
        | ASSERTIVE =>
            Ok ("Based on market research, " +:+ rupees target_price
                  +:+ " is what I can offer. It's competitive and fair.")
        | DIPLOMATIC =>
            Ok ("I've been looking at similar items, and " +:+ rupees target_price
                  +:+ " seems reasonable. What do you think?")
        | CONSIDERATE =>
            Ok ("I understand the value, but my budget is limited to " +:+ rupees target_price
                  +:+ ". Is there any flexibility?")
        end
      else if has "no" || has "cannot" || has "firm" || has "minimum" then
        (* Seller rejected - increase offer slightly *)
        match Py.int_mul_1_15 target_price with
        | None => Raise OverflowError
        | Some scaled =>
            let counter_offer := Z.min scaled (target_price + 5000) in
            match approach with
            | ASSERTIVE =>
                Ok ("I understand. Let me stretch my budget to " +:+ rupees counter_offer
                      +:+ ". This is really my maximum.")
            | DIPLOMATIC =>
                Ok ("I appreciate your position. Could we perhaps meet at " +:+ rupees counter_offer
                      +:+ "? That would really help both of us.")
            | CONSIDERATE =>
                Ok ("I really want this item. Could you please consider " +:+ rupees counter_offer
                      +:+ "? It would mean a lot to me.")
            end
        end
      else if has "yes" || has "okay" || has "accept" || has "deal" then
        (* Seller accepted *)
        Ok "Excellent! That works perfectly for me. When would be convenient for pickup? I can arrange payment immediately."
      else if has "meet" || has "pickup" || has "delivery" then
        (* Logistics discussion *)
        Ok "Perfect! I'm flexible with timing. I can come today or tomorrow, whatever works best for you. Should I bring cash or is online transfer preferred?"
      else if has "condition" || has "working" || has "problem" then
        (* Product condition inquiry: a plain string in the source, the
           braces are not interpolated *)
        Ok "Thank you for the details. As long as everything is as described, I'm happy to proceed with ₹{target_price:,}. Can we finalize this?"
      else
        (* General response *)
        match approach with
        | ASSERTIVE =>
            Ok ("Let me be direct - I can offer " +:+ rupees target_price
                  +:+ " and arrange pickup today. This is a fair market price.")
        | DIPLOMATIC =>
            Ok ("I've researched similar listings and " +:+ rupees target_price
                  +:+ " seems to be the going rate. Would you consider this offer?")
        | CONSIDERATE =>
            Ok ("I'm really hoping we can work something out at " +:+ rupees target_price
                  +:+ ". This would really help with my budget constraints.")
        end
  end.

(** What Python raises for a call that leaves [product] out. *)
Definition missing_product : exn :=
  TypeError "_get_fallback_response() missing 1 required positional argument: 'product'".

(** A call [self._get_fallback_response(...)] with the positional
    arguments the call site supplies.  [product] has no default value:
    a call site that leaves it out ([None] here) raises [TypeError]
    before the body runs. *)
Definition call_fallback_response (approach : approach_arg) (target_price : Z)
    (chat_history : list ChatMessage.t) (product : option (option Product.t))
    : outcome string :=
  match product with
  | Some product => _get_fallback_response approach target_price chat_history product
  | None => Raise missing_product
  end.

(** "Generate AI response based on negotiation context". *)
Definition generate_response (self : t) (approach : approach_arg)
    (target_price max_budget : Z) (chat_history : list ChatMessage.t)
    (product : option Product.t) : outcome string :=
  let approach := to_enum approach in
  match model self with
  | None =>
      call_fallback_response (AEnum approach) target_price chat_history (Some product)
  | Some _ =>
      let attempt :=
        context ← _build_negotiation_context approach target_price max_budget
                    chat_history product;
        _call_gemini_api self context in
      match attempt with
      | Ok response => Ok response
      | Raise e =>
          (* except Exception: the recovery call passes three arguments *)
          call_fallback_response (AEnum approach) target_price chat_history None
      end
  end.

End GeminiAIService.

(** ** JSON values: outbound payloads and request bodies *)

#[local] Set Warnings "-register-all".

(** A serialised dict is an object with its fields in order.  [JIso t]
    stands for the string [t.isoformat()] of the clock reading [t]. *)
Inductive json :=
| JNull
| JInt (n : Z)
| JStr (s : string)
| JIso (t : Z)
| JObj (fields : list (string * json)).

(** [key in d] and [d[key]] on the fields of an object. *)
Fixpoint dict_lookup (fields : list (string * json)) (key : string) : option json :=
  match fields with
  | [] => None
  | (k, v) :: rest => if String.eqb k key then Some v else dict_lookup rest key
  end.

(** [d.get(key, dflt)]. *)
Definition dict_get (fields : list (string * json)) (key : string) (dflt : json) : json :=
  match dict_lookup fields key with
  | Some v => v
  | None => dflt
  end.

(** [payload[key]] when [payload] is an object that has the key. *)
Definition field (payload : json) (key : string) : option json :=
  match payload with
  | JObj fields => dict_lookup fields key
  | _ => None
  end.

(** Modelled from the spec: the Session aggregate, with the attributes
    the source sets ([final_price], [outcome] and [ended_at] are unset,
    [None], until completion). *)
Module NegotiationSession.
Record t := mk {
  id : string;
  product_id : string;
  user_params : NegotiationParams.t;
  status : string;
  created_at : Z;
  messages : list ChatMessage.t;
  final_price : json;
  outcome : json;
  ended_at : option Z
}.

(** [session.messages.append(message)]. *)
Definition append (message : ChatMessage.t) (s : t) : t :=
  mk (id s) (product_id s) (user_params s) (status s) (created_at s)
     (messages s ++ [message]) (final_price s) (outcome s) (ended_at s).

(** The four assignments of [end_negotiation]. *)
Definition complete (final_price' outcome' : json) (ended_at' : Z) (s : t) : t :=
  mk (id s) (product_id s) (user_params s) "completed" (created_at s)
     (messages s) final_price' outcome' (Some ended_at').
End NegotiationSession.

(** ** Collaborators that are not among the sources *)

(** A transport endpoint (one accepted WebSocket). *)
Definition endpoint := nat.

Inductive role := SellerSide | UserSide.

(** Modelled from the spec: [websocket_manager.py] is not among the
    sources.  The registry holds at most one endpoint per session and
    role (section 4.1). *)
Module ConnectionManager.
Record t := mk {
  user_connections : gmap string endpoint;
  seller_connections : gmap string endpoint
}.

Definition lookup (self : t) (r : role) (session_id : string) : option endpoint :=
  match r with
  | SellerSide => seller_connections self !! session_id
  | UserSide => user_connections self !! session_id
  end.

(** What a [Send] puts on the wire: the payload for the registered
    endpoint, or nothing when the peer is absent. *)
Definition route (self : t) (r : role) (session_id : string) (payload : json)
    : list (endpoint * json) :=
  match lookup self r session_id with
  | Some ep => [(ep, payload)]
  | None => []
  end.
End ConnectionManager.

(** Modelled from the spec: [database.py] is not among the sources.
    [SaveSession] stores a snapshot under the session's identifier and
    [GetProduct] finds a descriptor or nothing (section 6). *)
Module JSONDatabase.
Record t := mk {
  products : gmap string Product.t;
  sessions : gmap string NegotiationSession.t
}.

Definition save (session : NegotiationSession.t) (self : t) : t :=
  mk (products self) (<[NegotiationSession.id session := session]> (sessions self)).
End JSONDatabase.

(** ** The process state *)

(** The globals of [main.py], the transport, and the environment the
    code consults: the wall clock, the UUID generator and the generation
    client are oracles indexed by the number of calls made so far. *)
Record World := mkWorld {
  active_sessions : gmap string NegotiationSession.t;
  manager : ConnectionManager.t;
  db : JSONDatabase.t;
  (** every payload delivered so far, with the endpoint that received it *)
  wire : list (endpoint * json);
  (** [datetime.now()] at its n-th call *)
  clock : nat -> Z;
  clock_reads : nat;
  (** [str(uuid.uuid4())] at its n-th call *)
  uuids : nat -> string;
  uuid_draws : nat;
  (** [ai_service.model]: [None] when the client was never configured,
      otherwise the client's answer, at the n-th call of
      [generate_response], to a prompt *)
  gemini : option (nat -> string -> outcome string);
  generate_calls : nat
}.

Definition set_active_sessions (f : gmap string NegotiationSession.t -> gmap string NegotiationSession.t)
    (w : World) : World :=
  mkWorld (f (active_sessions w)) (manager w) (db w) (wire w)
          (clock w) (clock_reads w) (uuids w) (uuid_draws w) (gemini w) (generate_calls w).

Definition set_db (f : JSONDatabase.t -> JSONDatabase.t) (w : World) : World :=
  mkWorld (active_sessions w) (manager w) (f (db w)) (wire w)
          (clock w) (clock_reads w) (uuids w) (uuid_draws w) (gemini w) (generate_calls w).

Definition set_wire (f : list (endpoint * json) -> list (endpoint * json)) (w : World) : World :=
  mkWorld (active_sessions w) (manager w) (db w) (f (wire w))
          (clock w) (clock_reads w) (uuids w) (uuid_draws w) (gemini w) (generate_calls w).

Definition tick_clock (w : World) : World :=
  mkWorld (active_sessions w) (manager w) (db w) (wire w)
          (clock w) (S (clock_reads w)) (uuids w) (uuid_draws w) (gemini w) (generate_calls w).

Definition tick_uuid (w : World) : World :=
  mkWorld (active_sessions w) (manager w) (db w) (wire w)
          (clock w) (clock_reads w) (uuids w) (S (uuid_draws w)) (gemini w) (generate_calls w).

Definition tick_generate (w : World) : World :=
  mkWorld (active_sessions w) (manager w) (db w) (wire w)
          (clock w) (clock_reads w) (uuids w) (uuid_draws w) (gemini w) (S (generate_calls w)).

(** ** The monad of the handlers *)

(** A computation changes the world and returns or raises; what it did
    before raising stays done. *)
Definition M (A : Type) : Type := World -> outcome A * World.

#[global] Instance M_ret : MRet M := fun A v w => (Ok v, w).
#[global] Instance M_bind : MBind M := fun A B f m w =>
  match m w with
  | (Ok v, w') => f v w'
  | (Raise e, w') => (Raise e, w')
  end.

Definition raise {A} (e : exn) : M A := fun w => (Raise e, w).

(** [try: body / except Exception as e: handler e]. *)
Definition try_except {A} (body : M A) (handler : exn -> M A) : M A := fun w =>
  match body w with
  | (Ok v, w') => (Ok v, w')
  | (Raise e, w') => handler e w'
  end.

Definition gets {A} (f : World -> A) : M A := fun w => (Ok (f w), w).
Definition modify (f : World -> World) : M unit := fun w => (Ok (), f w).
Definition lift {A} (r : outcome A) : M A := fun w => (r, w).

(** [datetime.now()]. *)
Definition datetime_now : M Z := fun w => (Ok (clock w (clock_reads w)), tick_clock w).

(** [str(uuid.uuid4())]. *)
Definition uuid4 : M string := fun w => (Ok (uuids w (uuid_draws w)), tick_uuid w).

(** ** [main.py] *)

(** "Convert ChatMessage to JSON-serializable dict". *)
Definition serialize_message (message : ChatMessage.t) : json :=
  JObj [
    ("id", JStr (ChatMessage.id message));
    ("session_id", JStr (ChatMessage.session_id message));
    ("sender", JStr (ChatMessage.sender message));
    ("content", JStr (ChatMessage.content message));
    ("timestamp", JIso (ChatMessage.timestamp message));
    ("sender_type", JStr (ChatMessage.sender_type message))
  ].

(** What a [Send] reports to its caller. *)
Inductive send_status := Delivered | PeerAbsent.

(** Modelled from the spec: [Send(sessionId, role, payload)] of section
    4.1, the [send_to_user] and [send_to_seller] of the absent
    [websocket_manager.py].  The payload goes to the endpoint registered
    for the session and role; with none registered it is dropped and
    "peer absent" is reported, which is not an error. *)
Definition send (r : role) (session_id : string) (payload : json) : M send_status :=
  fun w =>
    (Ok (match ConnectionManager.lookup (manager w) r session_id with
         | Some _ => Delivered
         | None => PeerAbsent
         end),
     set_wire (fun l => (l ++ ConnectionManager.route (manager w) r session_id payload)%list) w).

Definition send_to_user : string -> json -> M send_status := send UserSide.
Definition send_to_seller : string -> json -> M send_status := send SellerSide.

(** Modelled from the spec: [db.save_session(session)] and
    [db.get_product(product_id)] of the absent [database.py], the
    [SaveSession] and [GetProduct] of section 6; neither raises. *)
Definition db_save_session (session : NegotiationSession.t) : M unit :=
  modify (set_db (JSONDatabase.save session)).

Definition db_get_product (product_id : string) : M (option Product.t) :=
  gets (fun w => JSONDatabase.products (db w) !! product_id).

(** The global [ai_service], as it answers the next call. *)
Definition ai_service (w : World) : GeminiAIService.t :=
  GeminiAIService.mk ((fun client => client (generate_calls w)) <$> gemini w).

(** [await ai_service.generate_response(...)]. *)
Definition ai_generate_response (approach : approach_arg) (target_price max_budget : Z)
    (chat_history : list ChatMessage.t) (product : option Product.t) : M string :=
  fun w =>
    (GeminiAIService.generate_response (ai_service w) approach target_price max_budget
       chat_history product,
     tick_generate w).

(** [session] in the handlers is the object that [active_sessions] holds
    under [session_id]; a handler runs to its end without interleaving,
    so a mutation of the object is a replacement of the table's entry. *)
Definition store (session_id : string) (session : NegotiationSession.t) : M unit :=
  modify (set_active_sessions <[session_id := session]>).

Definition buyer_payload (message : ChatMessage.t) : json :=
  JObj [("type", JStr "message");
        ("message", serialize_message message);
        ("sender", JStr "buyer")].

Definition seller_payload (message : ChatMessage.t) : json :=
  JObj [("type", JStr "message");
        ("message", serialize_message message);
        ("sender", JStr "seller")].

Definition ai_response_payload (message : ChatMessage.t) : json :=
  JObj [("type", JStr "ai_response");
        ("message", serialize_message message);
        ("sender", JStr "ai")].

Definition error_payload : json :=
  JObj [("type", JStr "error");
        ("message", JStr "Failed to generate AI response")].

Definition session_ended_payload (result : list (string * json)) : json :=
  JObj [("type", JStr "session_ended");
        ("result", JObj result)].

(** [message_data.get("content", "")]. *)
Definition content_of (message_data : gmap string string) : string :=
  default "" (message_data !! "content").

(** "Handle user override messages". *)
Definition handle_user_message (session_id : string) (message_data : gmap string string)
    : M unit :=
  sessions ← gets active_sessions;
  match sessions !! session_id with
  | None => mret ()
  | Some session =>
      (* Create message *)
      id ← uuid4;
      timestamp ← datetime_now;
      let message :=
        ChatMessage.mk id session_id "user" (content_of message_data) timestamp "override" in
      (* Add to session *)
      let session := NegotiationSession.append message session in
      store session_id session;;
      (* Send to seller *)
      send_to_seller session_id (buyer_payload message);;
      (* Save session *)
      db_save_session session
  end.

(** "Handle seller messages and generate AI response". *)
Definition handle_seller_message (session_id : string) (message_data : gmap string string)
    : M unit :=
  sessions ← gets active_sessions;
  match sessions !! session_id with
  | None => mret ()
  | Some session =>
      (* Create seller message *)
      id ← uuid4;
      timestamp ← datetime_now;
      let seller_message :=
        ChatMessage.mk id session_id "seller" (content_of message_data) timestamp "human" in
      (* Add to session *)
      let session := NegotiationSession.append seller_message session in
      store session_id session;;
      (* Send to user *)
      send_to_user session_id (seller_payload seller_message);;
      (* Generate AI response *)
      session ← try_except
        (let user_params := NegotiationSession.user_params session in
         product ← db_get_product (NegotiationSession.product_id session);
         ai_response ← ai_generate_response
           (NegotiationParams.approach user_params)
           (NegotiationParams.target_price user_params)
           (NegotiationParams.max_budget user_params)
           (NegotiationSession.messages session)
           product;
         (* Create AI message *)
         id ← uuid4;
         timestamp ← datetime_now;
         let ai_message :=
           ChatMessage.mk id session_id "ai" ai_response timestamp "ai" in
         (* Add to session *)
         let session := NegotiationSession.append ai_message session in
         store session_id session;;
         (* Send AI response to seller (appears as buyer message) *)
         send_to_seller session_id (buyer_payload ai_message);;
         (* Send AI response to user for monitoring *)
         send_to_user session_id (ai_response_payload ai_message);;
         mret session)
        (fun e =>
           (* Send error to user *)
           send_to_user session_id error_payload;;
           mret session);
      (* Save session *)
      db_save_session session
  end.

(** The dict [start_negotiation] returns. *)
Record start_response := mk_start_response {
  response_session_id : string;
  response_message : string;
  response_product : Product.t
}.

(** "Start a new negotiation session". *)
Definition start_negotiation (params : NegotiationParams.t) : M start_response :=
  try_except
    ((* Create new session *)
     session_id ← uuid4;
     created_at ← datetime_now;
     let session :=
       NegotiationSession.mk session_id (NegotiationParams.product_id params) params
         "active" created_at [] JNull JNull None in
     (* Save session *)
     store session_id session;;
     db_save_session session;;
     (* Get product details *)
     product ← db_get_product (NegotiationParams.product_id params);
     match product with
     | None => raise (HTTPException 404 (Detail "Product not found"))
     | Some product =>
         mret (mk_start_response session_id "Negotiation session started successfully" product)
     end)
    (fun e => raise (HTTPException 500 (StrOf e))).

Definition ended_message : json :=
  JObj [("message", JStr "Negotiation ended successfully")].

(** "End negotiation session with result". *)
Definition end_negotiation (session_id : string) (result : list (string * json)) : M json :=
  try_except
    (sessions ← gets active_sessions;
     match sessions !! session_id with
     | Some session =>
         ended_at ← datetime_now;
         let session :=
           NegotiationSession.complete
             (dict_get result "final_price" JNull)
             (dict_get result "outcome" (JStr "unknown"))
             ended_at session in
         store session_id session;;
         (* Save final session *)
         db_save_session session;;
         (* Notify both parties *)
         send_to_user session_id (session_ended_payload result);;
         send_to_seller session_id (session_ended_payload result);;
         (* Remove from active sessions *)
         modify (set_active_sessions (delete session_id))
     | None => mret ()
     end;;
     mret ended_message)
    (fun e => raise (HTTPException 500 (StrOf e))).

(** ** What one lifecycle call does, in closed form *)

Definition after_end (sid : string) (result : list (string * json))
    (s : NegotiationSession.t) (w : World) : World :=
  let s1 :=
    NegotiationSession.complete (dict_get result "final_price" JNull)
      (dict_get result "outcome" (JStr "unknown")) (clock w (clock_reads w)) s in
  mkWorld (delete sid (<[sid := s1]> (active_sessions w))) (manager w)
    (JSONDatabase.save s1 (db w))
    ((wire w ++ ConnectionManager.route (manager w) UserSide sid (session_ended_payload result))
       ++ ConnectionManager.route (manager w) SellerSide sid (session_ended_payload result))
    (clock w) (S (clock_reads w)) (uuids w) (uuid_draws w)
    (gemini w) (generate_calls w).

(** The session [start_negotiation] creates in world [w]. *)
Definition new_session (params : NegotiationParams.t) (w : World) : NegotiationSession.t :=
  NegotiationSession.mk (uuids w (uuid_draws w)) (NegotiationParams.product_id params) params
    "active" (clock w (clock_reads w)) [] JNull JNull None.

Definition after_start (params : NegotiationParams.t) (w : World) : World :=
  let s := new_session params w in
  mkWorld (<[uuids w (uuid_draws w) := s]> (active_sessions w)) (manager w)
    (JSONDatabase.save s (db w)) (wire w)
    (clock w) (S (clock_reads w)) (uuids w) (S (uuid_draws w))
    (gemini w) (generate_calls w).

(** ** Runs of the boundary layer *)

(** One call of the boundary layer into the core. *)
Inductive call :=
| OnUserSideMessage (session_id : string) (message_data : gmap string string)
| OnSellerMessage (session_id : string) (message_data : gmap string string)
| OnStart (params : NegotiationParams.t)
| OnEnd (session_id : string) (result : list (string * json)).

Definition step (c : call) (w : World) : World :=
  match c with
  | OnUserSideMessage session_id message_data =>
      snd (handle_user_message session_id message_data w)
  | OnSellerMessage session_id message_data =>
      snd (handle_seller_message session_id message_data w)
  | OnStart params => snd (start_negotiation params w)
  | OnEnd session_id result => snd (end_negotiation session_id result w)
  end.

(** The calls are served one after the other. *)
Fixpoint run (cs : list call) (w : World) : World :=
  match cs with
  | [] => w
  | c :: cs' => run cs' (step c w)
  end.

Definition is_relay (c : call) : bool :=
  match c with
  | OnUserSideMessage _ _ | OnSellerMessage _ _ => true
  | OnStart _ | OnEnd _ _ => false
  end.

(** ** Observations on histories and on the wire *)

Definition timestamps (s : NegotiationSession.t) : list Z :=
  ChatMessage.timestamp <$> NegotiationSession.messages s.

Fixpoint nondecreasing (l : list Z) : bool :=
  match l with
  | a :: (b :: _) as rest => (a <=? b) && nondecreasing rest
  | _ => true
  end.

(** The wall clock never goes back. *)
Definition monotone (clk : nat -> Z) : Prop :=
  forall i j, (i <= j)%nat -> clk i <= clk j.

(** The history of [s] is stamped in non-decreasing order, and no stamp
    is later than the [n]-th reading of the clock. *)
Definition stamped_upto (clk : nat -> Z) (n : nat) (s : NegotiationSession.t) : Prop :=
  nondecreasing (timestamps s) = true /\
  Forall (fun t => t <= clk n) (timestamps s).

(** Every active session's history is stamped in order, up to the
    clock's next reading. *)
Definition stamped_in_order (w : World) : Prop :=
  forall sid s, active_sessions w !! sid = Some s ->
    stamped_upto (clock w) (clock_reads w) s.

(** The inbound messages of a history, those that a call of a relay
    entry point brought: sender and body, in history order. *)
Definition is_inbound (m : ChatMessage.t) : bool :=
  negb (String.eqb (ChatMessage.sender_type m) "ai").

Definition inbound (msgs : list ChatMessage.t) : list (string * string) :=
  (fun m => (ChatMessage.sender m, ChatMessage.content m)) <$> List.filter is_inbound msgs.

(** The inbound messages that the calls of a run address to a session,
    in call order. *)
Fixpoint accepted_for (sid : string) (cs : list call) : list (string * string) :=
  match cs with
  | [] => []
  | OnUserSideMessage sid' data :: cs' =>
      if String.eqb sid' sid then ("user", content_of data) :: accepted_for sid cs'
      else accepted_for sid cs'
  | OnSellerMessage sid' data :: cs' =>
      if String.eqb sid' sid then ("seller", content_of data) :: accepted_for sid cs'
      else accepted_for sid cs'
  | _ :: cs' => accepted_for sid cs'
  end.

(** The payloads an endpoint has received, oldest first. *)
Definition received (ep : endpoint) (l : list (endpoint * json)) : list json :=
  snd <$> List.filter (fun d => Nat.eqb (fst d) ep) l.

Definition payload_type (payload : json) : option json := field payload "type".

Definition is_error (payload : json) : bool :=
  match payload_type payload with
  | Some (JStr t) => String.eqb t "error"
  | _ => false
  end.

(** The payload carries the serialised message [m]. *)
Definition carries (payload : json) (m : ChatMessage.t) : Prop :=
  field payload "message" = Some (serialize_message m).

(** The message's sender is [origin]. *)
Definition from (origin : string) (m : ChatMessage.t) : bool :=
  String.eqb (ChatMessage.sender m) origin.

(** What was put on the wire between world [w] and the later world [w']. *)
Definition delivered_since (w w' : World) : list (endpoint * json) :=
  drop (length (wire w)) (wire w').

(** ** Sample worlds *)

Definition phone : Product.t :=
  Product.mk "p1" "Phone" 6500 "good" "Ravi" "Chennai".

Definition sample_params : NegotiationParams.t :=
  NegotiationParams.mk "p1" 5000 6000 (AStr "diplomatic").

Definition sample_session : NegotiationSession.t :=
  NegotiationSession.mk "s1" "p1" sample_params "active" 0 [] JNull JNull None.

(** A target above the maximum budget. *)
Definition over_budget : NegotiationParams.t :=
  NegotiationParams.mk "p1" 7000 6000 (AStr "diplomatic").

(** The body of an end request. *)
Definition deal : list (string * json) :=
  [("final_price", JInt 5500); ("outcome", JStr "deal")].

(** A client that answers every prompt with the same text. *)
Definition steady_client (n : nat) (prompt : string) : outcome string :=
  Ok "  Would 5,000 work for you?  ".

(** A client whose every call fails. *)
Definition failing_client (n : nat) (prompt : string) : outcome string :=
  Raise (ApiError "deadline exceeded").

Definition sample_uuids (n : nat) : string := "m" +:+ Py.str_nat (N.of_nat n).

(** No session yet: one product in the catalogue, a steady clock. *)
Definition boot (gemini : option (nat -> string -> outcome string)) : World :=
  mkWorld ∅ (ConnectionManager.mk ∅ ∅)
          (JSONDatabase.mk {["p1" := phone]} ∅) []
          (fun n => 100 + Z.of_nat n) 0 sample_uuids 0 gemini 0.

(** Session [s1] is active; endpoint 1 is its seller side and endpoint 2
    its user side. *)
Definition live (gemini : option (nat -> string -> outcome string)) : World :=
  mkWorld {["s1" := sample_session]}
          (ConnectionManager.mk {["s1" := 2%nat]} {["s1" := 1%nat]})
          (JSONDatabase.mk {["p1" := phone]} ∅) []
          (fun n => 100 + Z.of_nat n) 0 sample_uuids 0 gemini 0.

(** Session [s1] is active and nobody is connected. *)
Definition lonely (gemini : option (nat -> string -> outcome string)) : World :=
  mkWorld {["s1" := sample_session]} (ConnectionManager.mk ∅ ∅)
          (JSONDatabase.mk {["p1" := phone]} ∅) []
          (fun n => 100 + Z.of_nat n) 0 sample_uuids 0 gemini 0.

(** As [live], with a wall clock that is set back after its first
    reading. *)
Definition set_back (w : World) : World :=
  mkWorld (active_sessions w) (manager w) (db w) (wire w)
          (fun n => match n with O => 10 | _ => 5 end) (clock_reads w)
          (uuids w) (uuid_draws w) (gemini w) (generate_calls w).

(** ** What one relay call does, in closed form *)

(** The Message a user-side call builds in world [w]. *)
Definition user_message (sid : string) (data : gmap string string) (w : World) : ChatMessage.t :=
  ChatMessage.mk (uuids w (uuid_draws w)) sid "user" (content_of data)
    (clock w (clock_reads w)) "override".

(** The Message a seller-side call builds in world [w]. *)
Definition seller_message (sid : string) (data : gmap string string) (w : World) : ChatMessage.t :=
  ChatMessage.mk (uuids w (uuid_draws w)) sid "seller" (content_of data)
    (clock w (clock_reads w)) "human".

(** The generation call of a seller turn on session [s]: the service is
    given the history that already ends with the seller's message. *)
Definition generation (sid : string) (data : gmap string string)
    (s : NegotiationSession.t) (w : World) : outcome string :=
  let user_params := NegotiationSession.user_params s in
  GeminiAIService.generate_response (ai_service w)
    (NegotiationParams.approach user_params)
    (NegotiationParams.target_price user_params)
    (NegotiationParams.max_budget user_params)
    (NegotiationSession.messages s ++ [seller_message sid data w])
    (JSONDatabase.products (db w) !! NegotiationSession.product_id s).

(** The agent Message of a seller turn whose generation returned [text]. *)
Definition ai_message (sid : string) (text : string) (w : World) : ChatMessage.t :=
  ChatMessage.mk (uuids w (S (uuid_draws w))) sid "ai" text
    (clock w (S (clock_reads w))) "ai".

Definition after_user (sid : string) (data : gmap string string)
    (s : NegotiationSession.t) (w : World) : World :=
  let m := user_message sid data w in
  let s1 := NegotiationSession.append m s in
  mkWorld (<[sid := s1]> (active_sessions w)) (manager w)
    (JSONDatabase.save s1 (db w))
    (wire w ++ ConnectionManager.route (manager w) SellerSide sid (buyer_payload m))
    (clock w) (S (clock_reads w)) (uuids w) (S (uuid_draws w))
    (gemini w) (generate_calls w).

Definition after_seller (sid : string) (data : gmap string string)
    (s : NegotiationSession.t) (w : World) : World :=
  let m1 := seller_message sid data w in
  let s1 := NegotiationSession.append m1 s in
  match generation sid data s w with
  | Ok text =>
      let m2 := ai_message sid text w in
      let s2 := NegotiationSession.append m2 s1 in
      mkWorld (<[sid := s2]> (<[sid := s1]> (active_sessions w))) (manager w)
        (JSONDatabase.save s2 (db w))
        (((wire w ++ ConnectionManager.route (manager w) UserSide sid (seller_payload m1))
            ++ ConnectionManager.route (manager w) SellerSide sid (buyer_payload m2))
            ++ ConnectionManager.route (manager w) UserSide sid (ai_response_payload m2))
        (clock w) (S (S (clock_reads w))) (uuids w) (S (S (uuid_draws w)))
        (gemini w) (S (generate_calls w))
  | Raise _ =>
      mkWorld (<[sid := s1]> (active_sessions w)) (manager w)
        (JSONDatabase.save s1 (db w))
        ((wire w ++ ConnectionManager.route (manager w) UserSide sid (seller_payload m1))
            ++ ConnectionManager.route (manager w) UserSide sid error_payload)
        (clock w) (S (clock_reads w)) (uuids w) (S (uuid_draws w))
        (gemini w) (S (generate_calls w))
  end.

(** ** The read endpoints of [main.py] *)

(** Modelled from the spec: [db.get_session(session_id)] of the absent
    [database.py], the [LoadSession] of section 6: the saved session or
    nothing; it does not raise. *)
Definition db_get_session (session_id : string) : M (option NegotiationSession.t) :=
  gets (fun w => JSONDatabase.sessions (db w) !! session_id).

(** "Get specific product by ID". *)
Definition get_product (product_id : string) : M Product.t :=
  try_except
    (product ← db_get_product product_id;
     match product with
     | None => raise (HTTPException 404 (Detail "Product not found"))
     | Some product => mret product
     end)
    (fun e => raise (HTTPException 500 (StrOf e))).

(** "Get negotiation session details". *)
Definition get_negotiation_session (session_id : string) : M NegotiationSession.t :=
  try_except
    (sessions ← gets active_sessions;
     session ← match sessions !! session_id with
               | Some session => mret (Some session)
               | None => db_get_session session_id
               end;
     match session with
     | None => raise (HTTPException 404 (Detail "Session not found"))
     | Some session => mret session
     end)
    (fun e => raise (HTTPException 500 (StrOf e))).

(** ** Observations on the fallback and on runs *)

(** The subject the keyword chain of [_get_fallback_response] finds in
    the latest seller message (already in lower case): the tests of the
    [if]/[elif] chain, in the source's order. *)
Inductive topic :=
| Greeting | PriceTalk | Rejection | Acceptance | Logistics | ConditionTalk | General.

Definition topic_of (last_message : string) : topic :=
  let has kw := Py.contains kw last_message in
  if has "hi" || has "hello" || has "available" then Greeting
  else if has "price" || has "cost" || has "amount" then PriceTalk
  else if has "no" || has "cannot" || has "firm" || has "minimum" then Rejection
  else if has "yes" || has "okay" || has "accept" || has "deal" then Acceptance
  else if has "meet" || has "pickup" || has "delivery" then Logistics
  else if has "condition" || has "working" || has "problem" then ConditionTalk
  else General.

(** The three replies of the "Seller rejected" branch, for a counter
    offer [c]. *)
Definition rejection_reply (approach : NegotiationApproach) (c : Z) : string :=
  match approach with
  | ASSERTIVE =>
      "I understand. Let me stretch my budget to " +:+ GeminiAIService.rupees c
        +:+ ". This is really my maximum."
  | DIPLOMATIC =>
      "I appreciate your position. Could we perhaps meet at " +:+ GeminiAIService.rupees c
        +:+ "? That would really help both of us."
  | CONSIDERATE =>
      "I really want this item. Could you please consider " +:+ GeminiAIService.rupees c
        +:+ "? It would mean a lot to me."
  end.

(** The reply of the "Product condition inquiry" branch. *)
Definition condition_reply : string :=
  "Thank you for the details. As long as everything is as described, I'm happy to proceed with ₹{target_price:,}. Can we finalize this?".

(** The latest seller message of a history, as both service functions
    look it up. *)
Definition last_seller (chat_history : list ChatMessage.t) : option ChatMessage.t :=
  last (List.filter GeminiAIService.is_seller chat_history).

(** The session a call addresses; [Start] addresses none. *)
Definition addressed (c : call) : option string :=
  match c with
  | OnUserSideMessage sid _ | OnSellerMessage sid _ | OnEnd sid _ => Some sid
  | OnStart _ => None
  end.

(** The seller messages of a run that find their session in the table
    [sessions]. *)
Fixpoint seller_calls_on (sessions : gmap string NegotiationSession.t) (cs : list call) : nat :=
  match cs with
  | [] => 0
  | OnSellerMessage sid _ :: cs' =>
      match sessions !! sid with
      | Some _ => S (seller_calls_on sessions cs')
      | None => seller_calls_on sessions cs'
      end
  | _ :: cs' => seller_calls_on sessions cs'
  end.

(** Every active session is filed under its own identifier, is active,
    holds only messages that name it, and equals its saved copy. *)
Definition well_kept (w : World) : Prop :=
  forall sid s, active_sessions w !! sid = Some s ->
    NegotiationSession.id s = sid /\
    NegotiationSession.status s = "active" /\
    Forall (fun m => ChatMessage.session_id m = sid) (NegotiationSession.messages s) /\
    JSONDatabase.sessions (db w) !! sid = Some s.

(** A history of six messages, the second of them the seller's latest,
    and two older ones. *)
Definition recent_six : list ChatMessage.t :=
  [ChatMessage.mk "c" "s1" "user" "would 5000 do?" 3 "override";
   ChatMessage.mk "d" "s1" "seller" "6200 is my price" 4 "human";
   ChatMessage.mk "e" "s1" "ai" "could we meet at 5500?" 5 "ai";
   ChatMessage.mk "f" "s1" "user" "I can pick it up today" 6 "override";
   ChatMessage.mk "g" "s1" "user" "cash is fine" 7 "override";
   ChatMessage.mk "h" "s1" "user" "still there?" 8 "override"].

Definition older_two : list ChatMessage.t :=
  [ChatMessage.mk "a" "s1" "seller" "hello" 1 "human";
   ChatMessage.mk "b" "s1" "ai" "hi, is it available?" 2 "ai"].

(** The identifiers of each history are draws of the UUID generator,
    taken in history order: the [k]-th identifier is a draw made before
    the next one and before the draws still to come. *)
Definition ids_in_draw_order (w : World) : Prop :=
  forall sid s, active_sessions w !! sid = Some s ->
    exists ks : list nat,
      ChatMessage.id <$> NegotiationSession.messages s = uuids w <$> ks /\
      StronglySorted lt ks /\
      Forall (fun k => (k < uuid_draws w)%nat) ks.

(** The text is ASCII: every character is below 128.  On such text
    [Py.lower] and [Py.upper] are Python's [str.lower] and [str.upper];
    on other text Python folds more (U+0130 lower-cases to an [i] and a
    combining dot, U+00DF upper-cases to [SS]), which the byte-wise
    functions do not follow. *)
Definition is_ascii (s : string) : bool :=
  forallb (fun c => (nat_of_ascii c <? 128)%nat) (list_ascii_of_string s).

(** * Properties *)

(** ** The built-ins on sample values *)

Example ex_lower : Py.lower "DiploMATIC" = "diplomatic".
Proof. reflexivity. Qed.

Example ex_contains : Py.contains "hi" "is this available?" = true.
Proof. reflexivity. Qed.

Example ex_format_comma : Py.format_comma 1234567 = "1,234,567".
Proof. reflexivity. Qed.

Example ex_format_comma_small : Py.format_comma 999 = "999".
Proof. reflexivity. Qed.

Example ex_format_comma_neg : Py.format_comma (-1000) = "-1,000".
Proof. reflexivity. Qed.

Example ex_format_comma_zero : Py.format_comma 0 = "0".
Proof. reflexivity. Qed.

Example ex_strip : Py.strip "  Sure, 5000 works.  " = "Sure, 5000 works.".
Proof. reflexivity. Qed.

Example ex_mul_100 : Py.int_mul_1_15 100 = Some 114.
Proof. vm_compute. reflexivity. Qed.

Example ex_mul_5000 : Py.int_mul_1_15 5000 = Some 5750.
Proof. vm_compute. reflexivity. Qed.

Example ex_rupee : String.length "₹" = 3%nat.
Proof. reflexivity. Qed.

(** ** The relay entry points, call by call *)

Lemma user_absent w sid data :
  active_sessions w !! sid = None ->
  handle_user_message sid data w = (Ok (), w).
Proof.
  intros H. unfold handle_user_message, mbind, M_bind, gets. now rewrite H.
Qed.

Lemma seller_absent w sid data :
  active_sessions w !! sid = None ->
  handle_seller_message sid data w = (Ok (), w).
Proof.
  intros H. unfold handle_seller_message, mbind, M_bind, gets. now rewrite H.
Qed.

Lemma user_active w sid data s :
  active_sessions w !! sid = Some s ->
  handle_user_message sid data w = (Ok (), after_user sid data s w).
Proof.
  intros H. unfold handle_user_message, mbind, M_bind, gets. rewrite H.
  reflexivity.
Qed.

Lemma seller_active w sid data s :
  active_sessions w !! sid = Some s ->
  handle_seller_message sid data w = (Ok (), after_seller sid data s w).
Proof.
  intros H. unfold handle_seller_message, mbind, M_bind, gets. rewrite H.
  unfold after_seller, generation, try_except, ai_generate_response, db_get_product, gets.
  cbn.
  destruct (GeminiAIService.generate_response _ _ _ _ _ _); reflexivity.
Qed.

Lemma serialize_message_inj m1 m2 :
  serialize_message m1 = serialize_message m2 -> m1 = m2.
Proof.
  destruct m1, m2. unfold serialize_message. cbn. intros H.
  injection H as -> -> -> -> -> ->. reflexivity.
Qed.

Lemma carries_buyer m m' : carries (buyer_payload m) m' -> m' = m.
Proof.
  unfold carries, buyer_payload. cbn. intros H.
  apply serialize_message_inj. congruence.
Qed.

Lemma carries_seller m m' : carries (seller_payload m) m' -> m' = m.
Proof.
  unfold carries, seller_payload. cbn. intros H.
  apply serialize_message_inj. congruence.
Qed.

Lemma carries_ai_response m m' : carries (ai_response_payload m) m' -> m' = m.
Proof.
  unfold carries, ai_response_payload. cbn. intros H.
  apply serialize_message_inj. congruence.
Qed.

Lemma carries_error m : ~ carries error_payload m.
Proof. unfold carries, error_payload, serialize_message. cbn. discriminate. Qed.

Lemma route_absent mgr r sid payload :
  ConnectionManager.lookup mgr r sid = None ->
  ConnectionManager.route mgr r sid payload = [].
Proof. unfold ConnectionManager.route. now intros ->. Qed.

Lemma elem_of_route mgr r sid payload d :
  d ∈ ConnectionManager.route mgr r sid payload ->
  ConnectionManager.lookup mgr r sid = Some (fst d) /\ snd d = payload.
Proof.
  unfold ConnectionManager.route.
  destruct (ConnectionManager.lookup mgr r sid); intros H.
  - apply list_elem_of_singleton in H. now subst.
  - now apply not_elem_of_nil in H.
Qed.

(** C9. A relay call for a session identifier that is not in the active
    table does nothing: both entry points return normally and leave the
    whole process state as it was, so no history grows and no payload is
    delivered. *)
Theorem relay_ignores_unknown_session w sid data :
  active_sessions w !! sid = None ->
  handle_seller_message sid data w = (Ok (), w) /\
  handle_user_message sid data w = (Ok (), w).
Proof.
  intros H. split.
  - now apply seller_absent.
  - now apply user_absent.
Qed.

Lemma relay_ignores_unknown_session_witness :
  active_sessions (live None) !! "s9" = None /\
  handle_seller_message "s9" {["content" := "hi"]} (live None) = (Ok (), live None) /\
  handle_user_message "s9" {["content" := "hi"]} (live None) = (Ok (), live None).
Proof.
  split; [reflexivity |].
  apply (relay_ignores_unknown_session (live None) "s9" {["content" := "hi"]}).
  reflexivity.
Defined.

(** C5. A user-side message on an active session is an override: the
    call returns normally; exactly one Message, sender [user] (the
    spec's origin agent-side-user) and sender type [override], is
    appended to that session's history and no other session changes; the
    one payload put on the wire is that Message labelled sender [buyer],
    addressed to the seller side; and no generation call is made.  The
    payload is spelled out: type [message], sender [buyer], and under
    [message] the six fields of the Message with its identifier, session,
    sender, body, time stamp and sender type, so that it carries this
    Message and no other. *)
Theorem user_override_turn w sid s data :
  active_sessions w !! sid = Some s ->
  fst (handle_user_message sid data w) = Ok () /\
  ChatMessage.sender (user_message sid data w) = "user" /\
  ChatMessage.sender_type (user_message sid data w) = "override" /\
  ChatMessage.content (user_message sid data w) = content_of data /\
  NegotiationSession.messages <$> active_sessions (snd (handle_user_message sid data w)) !! sid
    = Some (NegotiationSession.messages s ++ [user_message sid data w]) /\
  (forall sid', sid' <> sid ->
     active_sessions (snd (handle_user_message sid data w)) !! sid'
       = active_sessions w !! sid') /\
  wire (snd (handle_user_message sid data w))
    = wire w ++ ConnectionManager.route (manager w) SellerSide sid
                  (buyer_payload (user_message sid data w)) /\
  field (buyer_payload (user_message sid data w)) "sender" = Some (JStr "buyer") /\
  carries (buyer_payload (user_message sid data w)) (user_message sid data w) /\
  generate_calls (snd (handle_user_message sid data w)) = generate_calls w /\
  buyer_payload (user_message sid data w)
    = JObj [("type", JStr "message");
            ("message",
             JObj [("id", JStr (uuids w (uuid_draws w)));
                   ("session_id", JStr sid);
                   ("sender", JStr "user");
                   ("content", JStr (content_of data));
                   ("timestamp", JIso (clock w (clock_reads w)));
                   ("sender_type", JStr "override")]);
            ("sender", JStr "buyer")] /\
  (forall m', carries (buyer_payload (user_message sid data w)) m' ->
     m' = user_message sid data w).
Proof.
  intros H. rewrite (user_active _ _ _ _ H). cbn [fst snd after_user active_sessions wire generate_calls].
  repeat split.
  - now rewrite lookup_insert_eq.
  - intros sid' Hne. now rewrite lookup_insert_ne.
  - intros m' Hc. now apply carries_buyer in Hc.
Qed.

Lemma user_override_turn_witness :
  active_sessions (live None) !! "s1" = Some sample_session /\
  wire (snd (handle_user_message "s1" {["content" := "final offer 5500"]} (live None)))
    = [(1%nat,
        JObj [("type", JStr "message");
              ("message",
               JObj [("id", JStr "m0");
                     ("session_id", JStr "s1");
                     ("sender", JStr "user");
                     ("content", JStr "final offer 5500");
                     ("timestamp", JIso 100);
                     ("sender_type", JStr "override")]);
              ("sender", JStr "buyer")])] /\
  generate_calls (snd (handle_user_message "s1" {["content" := "final offer 5500"]} (live None))) = 0%nat.
Proof.
  split; [reflexivity |].
  pose proof (user_override_turn (live None) "s1" sample_session
                {["content" := "final offer 5500"]} eq_refl) as H.
  destruct H as (_ & _ & _ & _ & _ & _ & Hwire & _ & _ & Hgen & Hpayload & _).
  split; [| exact Hgen].
  rewrite Hwire, Hpayload. reflexivity.
Defined.

Lemma received_app ep l1 l2 :
  received ep (l1 ++ l2) = received ep l1 ++ received ep l2.
Proof. unfold received. now rewrite List.filter_app, fmap_app. Qed.

Lemma received_route_other mgr r sid payload ep :
  ConnectionManager.lookup mgr r sid <> Some ep ->
  received ep (ConnectionManager.route mgr r sid payload) = [].
Proof.
  unfold ConnectionManager.route, received. intros Hne.
  destruct (ConnectionManager.lookup mgr r sid) as [ep' |]; [| reflexivity].
  cbn. destruct (Nat.eqb_spec ep' ep) as [-> |]; [congruence | reflexivity].
Qed.

Lemma received_route_self mgr r sid payload ep :
  ConnectionManager.lookup mgr r sid = Some ep ->
  received ep (ConnectionManager.route mgr r sid payload) = [payload].
Proof.
  unfold ConnectionManager.route, received. intros ->.
  cbn. now rewrite Nat.eqb_refl.
Qed.

(** C1. A seller message on an active session: the call returns
    normally and appends exactly one seller Message (sender [seller],
    sender type [human]) to that session's history; an agent Message
    (sender [ai]) is appended if and only if the generation call returns
    a text; and when it does, the history grows by the seller Message
    followed by the agent Message, the agent Message goes to the seller
    side labelled sender [buyer] and a second copy goes to the user side
    as an [ai_response] event.  Both payloads are spelled out: under
    [message] they hold the six fields of the agent Message, its
    identifier, session, sender, the generated text, time stamp and
    sender type, so that each carries this Message and no other. *)
Theorem seller_turn w sid s data :
  active_sessions w !! sid = Some s ->
  let m1 := seller_message sid data w in
  let w' := snd (handle_seller_message sid data w) in
  fst (handle_seller_message sid data w) = Ok () /\
  ChatMessage.sender m1 = "seller" /\
  ChatMessage.sender_type m1 = "human" /\
  ChatMessage.content m1 = content_of data /\
  (exists appended,
     NegotiationSession.messages <$> active_sessions w' !! sid
       = Some (NegotiationSession.messages s ++ appended) /\
     List.filter (from "seller") appended = [m1] /\
     ((exists m, m ∈ appended /\ ChatMessage.sender m = "ai")
        <-> is_ok (generation sid data s w) = true)) /\
  (forall text, generation sid data s w = Ok text ->
     let m2 := ai_message sid text w in
     NegotiationSession.messages <$> active_sessions w' !! sid
       = Some (NegotiationSession.messages s ++ [m1; m2]) /\
     ChatMessage.sender m2 = "ai" /\
     ChatMessage.sender_type m2 = "ai" /\
     ChatMessage.content m2 = text /\
     wire w' = wire w
       ++ ConnectionManager.route (manager w) UserSide sid (seller_payload m1)
       ++ ConnectionManager.route (manager w) SellerSide sid (buyer_payload m2)
       ++ ConnectionManager.route (manager w) UserSide sid (ai_response_payload m2) /\
     field (buyer_payload m2) "sender" = Some (JStr "buyer") /\
     carries (buyer_payload m2) m2 /\
     payload_type (ai_response_payload m2) = Some (JStr "ai_response") /\
     carries (ai_response_payload m2) m2 /\
     buyer_payload m2
       = JObj [("type", JStr "message");
               ("message",
                JObj [("id", JStr (uuids w (S (uuid_draws w))));
                      ("session_id", JStr sid);
                      ("sender", JStr "ai");
                      ("content", JStr text);
                      ("timestamp", JIso (clock w (S (clock_reads w))));
                      ("sender_type", JStr "ai")]);
               ("sender", JStr "buyer")] /\
     ai_response_payload m2
       = JObj [("type", JStr "ai_response");
               ("message",
                JObj [("id", JStr (uuids w (S (uuid_draws w))));
                      ("session_id", JStr sid);
                      ("sender", JStr "ai");
                      ("content", JStr text);
                      ("timestamp", JIso (clock w (S (clock_reads w))));
                      ("sender_type", JStr "ai")]);
               ("sender", JStr "ai")] /\
     (forall m', carries (buyer_payload m2) m' -> m' = m2) /\
     (forall m', carries (ai_response_payload m2) m' -> m' = m2)).
Proof.
  intros H m1 w'. subst w'. rewrite (seller_active _ _ _ _ H).
  cbn [fst snd]. unfold after_seller. fold m1.
  do 4 (split; [reflexivity |]). split.
  - destruct (generation sid data s w) as [text | e]; cbn [active_sessions].
    + exists [m1; ai_message sid text w]. rewrite lookup_insert_eq. cbn.
      rewrite <- app_assoc. repeat split; try reflexivity.
      exists (ai_message sid text w). split; [| reflexivity].
      set_solver.
    + exists [m1]. rewrite lookup_insert_eq. cbn. repeat split; try discriminate.
      intros (m & Hm & Hai). apply list_elem_of_singleton in Hm. subst m.
      discriminate Hai.
  - intros text ->. cbn [active_sessions wire]. rewrite lookup_insert_eq.
    cbn [fmap option_fmap option_map NegotiationSession.messages NegotiationSession.append].
    rewrite <- !app_assoc. repeat split.
    + intros m' Hc. now apply carries_buyer in Hc.
    + intros m' Hc. now apply carries_ai_response in Hc.
Qed.

Lemma seller_turn_witness :
  active_sessions (live (Some steady_client)) !! "s1" = Some sample_session /\
  generation "s1" {["content" := "hi"]} sample_session (live (Some steady_client))
    = Ok "Would 5,000 work for you?" /\
  wire (snd (handle_seller_message "s1" {["content" := "hi"]} (live (Some steady_client))))
    = [(2%nat, seller_payload (seller_message "s1" {["content" := "hi"]} (live (Some steady_client))));
       (1%nat,
        JObj [("type", JStr "message");
              ("message",
               JObj [("id", JStr "m1");
                     ("session_id", JStr "s1");
                     ("sender", JStr "ai");
                     ("content", JStr "Would 5,000 work for you?");
                     ("timestamp", JIso 101);
                     ("sender_type", JStr "ai")]);
              ("sender", JStr "buyer")]);
       (2%nat,
        JObj [("type", JStr "ai_response");
              ("message",
               JObj [("id", JStr "m1");
                     ("session_id", JStr "s1");
                     ("sender", JStr "ai");
                     ("content", JStr "Would 5,000 work for you?");
                     ("timestamp", JIso 101);
                     ("sender_type", JStr "ai")]);
              ("sender", JStr "ai")])].
Proof.
  split; [reflexivity |]. split; [vm_compute; reflexivity |].
  pose proof (seller_turn (live (Some steady_client)) "s1" sample_session
                {["content" := "hi"]} eq_refl) as H.
  cbv zeta in H.
  destruct H as (_ & _ & _ & _ & _ & Hok).
  destruct (Hok "Would 5,000 work for you?")
    as (_ & _ & _ & _ & Hwire & _ & _ & _ & _ & Hbuyer & Hai & _).
  - vm_compute. reflexivity.
  - rewrite Hwire, Hbuyer, Hai. reflexivity.
Defined.

(** C2. A seller message on an active session whose generation call
    fails (the call raises, a deadline exceeded included): the call
    still returns normally; the history grows by the seller Message
    alone, so no agent Message is appended; what is put on the wire is
    the relayed seller text and then one [error] payload, both addressed
    to the user side; an attached user-side endpoint thus receives
    exactly one [error] payload in the turn, and a seller-side endpoint
    receives nothing. *)
Theorem generation_failure_turn w sid s data e :
  active_sessions w !! sid = Some s ->
  generation sid data s w = Raise e ->
  let m1 := seller_message sid data w in
  let w' := snd (handle_seller_message sid data w) in
  fst (handle_seller_message sid data w) = Ok () /\
  NegotiationSession.messages <$> active_sessions w' !! sid
    = Some (NegotiationSession.messages s ++ [m1]) /\
  from "ai" m1 = false /\
  wire w' = wire w
    ++ ConnectionManager.route (manager w) UserSide sid (seller_payload m1)
    ++ ConnectionManager.route (manager w) UserSide sid error_payload /\
  (forall ep, ConnectionManager.lookup (manager w) UserSide sid = Some ep ->
     List.filter is_error (received ep (delivered_since w w')) = [error_payload]) /\
  (forall ep, ConnectionManager.lookup (manager w) UserSide sid <> Some ep ->
     received ep (delivered_since w w') = []).
Proof.
  intros H Hgen m1 w'.
  assert (Hwire : wire w' = wire w
            ++ ConnectionManager.route (manager w) UserSide sid (seller_payload m1)
            ++ ConnectionManager.route (manager w) UserSide sid error_payload).
  { subst w'. rewrite (seller_active _ _ _ _ H). cbn [snd]. unfold after_seller.
    rewrite Hgen. cbn [wire]. now rewrite <- app_assoc. }
  unfold delivered_since. rewrite Hwire, drop_app_length.
  subst w'. rewrite (seller_active _ _ _ _ H). cbn [fst snd]. unfold after_seller.
  rewrite Hgen. cbn [active_sessions wire]. rewrite lookup_insert_eq.
  split; [reflexivity |]. split; [reflexivity |]. split; [reflexivity |].
  split; [reflexivity |]. split.
  - intros ep Hep. rewrite received_app, !(received_route_self _ _ _ _ _ Hep).
    reflexivity.
  - intros ep Hep. rewrite received_app, !received_route_other by exact Hep.
    reflexivity.
Qed.

Lemma generation_failure_turn_witness :
  active_sessions (live (Some failing_client)) !! "s1" = Some sample_session /\
  generation "s1" {["content" := "500000 firm price, no negotiation"]} sample_session
    (live (Some failing_client))
    = Raise GeminiAIService.missing_product /\
  List.filter is_error
    (received 2%nat
       (delivered_since (live (Some failing_client))
          (snd (handle_seller_message "s1"
                  {["content" := "500000 firm price, no negotiation"]}
                  (live (Some failing_client))))))
    = [error_payload] /\
  received 1%nat
    (delivered_since (live (Some failing_client))
       (snd (handle_seller_message "s1"
               {["content" := "500000 firm price, no negotiation"]}
               (live (Some failing_client)))))
    = [].
Proof.
  split; [reflexivity |]. split; [vm_compute; reflexivity |].
  pose proof (generation_failure_turn (live (Some failing_client)) "s1" sample_session
                {["content" := "500000 firm price, no negotiation"]}
                GeminiAIService.missing_product
                eq_refl) as H.
  cbv zeta in H.
  destruct H as (_ & _ & _ & _ & Huser & Hseller); [vm_compute; reflexivity |].
  split.
  - apply Huser. reflexivity.
  - apply Hseller. vm_compute. discriminate.
Defined.

Lemma send_peer_absent r sid payload w :
  ConnectionManager.lookup (manager w) r sid = None ->
  fst (send r sid payload w) = Ok PeerAbsent /\
  wire (snd (send r sid payload w)) = wire w /\
  active_sessions (snd (send r sid payload w)) = active_sessions w.
Proof.
  intros H. unfold send. cbn. rewrite H, (route_absent _ _ _ _ H).
  now rewrite app_nil_r.
Qed.

(** C4. Delivery never decides what is recorded.  A [Send] to a role
    with no registered endpoint returns "peer absent" without raising and
    puts nothing on the wire.  Each relay entry point, on an active
    session, returns normally whoever is connected, and afterwards the
    inbound message is in the session's history; with no peer registered
    nothing is delivered and the message is in the history all the same.
    Every payload the call delivers that carries a Message carries one
    that is in the history when the call returns. *)
Theorem history_kept_when_peer_absent w sid s data :
  active_sessions w !! sid = Some s ->
  (forall r payload, ConnectionManager.lookup (manager w) r sid = None ->
     fst (send r sid payload w) = Ok PeerAbsent /\
     wire (snd (send r sid payload w)) = wire w) /\
  (let w' := snd (handle_user_message sid data w) in
   fst (handle_user_message sid data w) = Ok () /\
   exists s', active_sessions w' !! sid = Some s' /\
     user_message sid data w ∈ NegotiationSession.messages s' /\
     (ConnectionManager.lookup (manager w) SellerSide sid = None -> wire w' = wire w) /\
     (forall d m, d ∈ delivered_since w w' -> carries (snd d) m ->
        m ∈ NegotiationSession.messages s')) /\
  (let w' := snd (handle_seller_message sid data w) in
   fst (handle_seller_message sid data w) = Ok () /\
   exists s', active_sessions w' !! sid = Some s' /\
     seller_message sid data w ∈ NegotiationSession.messages s' /\
     (ConnectionManager.lookup (manager w) SellerSide sid = None ->
      ConnectionManager.lookup (manager w) UserSide sid = None -> wire w' = wire w) /\
     (forall d m, d ∈ delivered_since w w' -> carries (snd d) m ->
        m ∈ NegotiationSession.messages s')).
Proof.
  intros H. split; [| split].
  - intros r payload Hr. destruct (send_peer_absent r sid payload w Hr) as (? & ? & _).
    now split.
  - intros w'. subst w'. rewrite (user_active _ _ _ _ H). cbn [fst snd].
    split; [reflexivity |].
    unfold delivered_since, after_user. cbn [active_sessions wire].
    rewrite drop_app_length.
    eexists. split; [apply lookup_insert_eq |]. cbn [NegotiationSession.messages NegotiationSession.append].
    split; [set_solver |]. split.
    + intros Hs. now rewrite (route_absent _ _ _ _ Hs), app_nil_r.
    + intros d m Hd Hc. apply elem_of_route in Hd as [_ Hp]. rewrite Hp in Hc.
      apply carries_buyer in Hc. set_solver.
  - intros w'. subst w'. rewrite (seller_active _ _ _ _ H). cbn [fst snd].
    split; [reflexivity |].
    unfold delivered_since, after_seller.
    destruct (generation sid data s w) as [text | e]; cbn [active_sessions wire].
    + rewrite <- !app_assoc, drop_app_length.
      eexists. split; [apply lookup_insert_eq |].
      cbn [NegotiationSession.messages NegotiationSession.append].
      split; [set_solver |]. split.
      * intros Hs Hu. now rewrite (route_absent _ _ _ _ Hs), !(route_absent _ _ _ _ Hu), !app_nil_r.
      * intros d m Hd Hc.
        rewrite !elem_of_app in Hd. destruct Hd as [Hd | [Hd | Hd]];
          apply elem_of_route in Hd as [_ Hp]; rewrite Hp in Hc.
        -- apply carries_seller in Hc. set_solver.
        -- apply carries_buyer in Hc. set_solver.
        -- apply carries_ai_response in Hc. set_solver.
    + rewrite <- !app_assoc, drop_app_length.
      eexists. split; [apply lookup_insert_eq |].
      cbn [NegotiationSession.messages NegotiationSession.append].
      split; [set_solver |]. split.
      * intros _ Hu. now rewrite !(route_absent _ _ _ _ Hu), !app_nil_r.
      * intros d m Hd Hc.
        rewrite !elem_of_app in Hd. destruct Hd as [Hd | Hd];
          apply elem_of_route in Hd as [_ Hp]; rewrite Hp in Hc.
        -- apply carries_seller in Hc. set_solver.
        -- now apply carries_error in Hc.
Qed.

Lemma history_kept_when_peer_absent_witness :
  active_sessions (lonely None) !! "s1" = Some sample_session /\
  fst (handle_seller_message "s1" {["content" := "hi"]} (lonely None)) = Ok () /\
  wire (snd (handle_seller_message "s1" {["content" := "hi"]} (lonely None))) = [] /\
  exists s', active_sessions (snd (handle_seller_message "s1" {["content" := "hi"]} (lonely None))) !! "s1"
               = Some s' /\
    seller_message "s1" {["content" := "hi"]} (lonely None) ∈ NegotiationSession.messages s'.
Proof.
  split; [reflexivity |].
  pose proof (history_kept_when_peer_absent (lonely None) "s1" sample_session
                {["content" := "hi"]} eq_refl) as H.
  cbv zeta in H.
  destruct H as (_ & _ & Hok & s' & Hs' & Hin & Hwire & _).
  split; [exact Hok |]. split.
  - apply Hwire; reflexivity.
  - exists s'. split; [exact Hs' | exact Hin].
Defined.

(** ** The session lifecycle *)

Lemma end_absent w sid result :
  active_sessions w !! sid = None ->
  end_negotiation sid result w = (Ok ended_message, w).
Proof.
  intros H. unfold end_negotiation, try_except, mbind, M_bind, gets. now rewrite H.
Qed.

Lemma end_active w sid result s :
  active_sessions w !! sid = Some s ->
  end_negotiation sid result w = (Ok ended_message, after_end sid result s w).
Proof.
  intros H. unfold end_negotiation, try_except, mbind, M_bind, gets. rewrite H.
  reflexivity.
Qed.

Lemma end_evicts w sid result :
  active_sessions (snd (end_negotiation sid result w)) !! sid = None.
Proof.
  destruct (active_sessions w !! sid) as [s |] eqn:H.
  - rewrite (end_active _ _ _ _ H). cbn. apply lookup_delete_eq.
  - now rewrite (end_absent _ _ _ H).
Qed.

Lemma start_found w params p :
  JSONDatabase.products (db w) !! NegotiationParams.product_id params = Some p ->
  start_negotiation params w
    = (Ok (mk_start_response (uuids w (uuid_draws w))
             "Negotiation session started successfully" p),
       after_start params w).
Proof.
  intros H. unfold start_negotiation, try_except, mbind, M_bind, db_get_product, gets.
  cbn. rewrite H. reflexivity.
Qed.

Lemma start_not_found w params :
  JSONDatabase.products (db w) !! NegotiationParams.product_id params = None ->
  start_negotiation params w
    = (Raise (HTTPException 500 (StrOf (HTTPException 404 (Detail "Product not found")))),
       after_start params w).
Proof.
  intros H. unfold start_negotiation, try_except, mbind, M_bind, db_get_product, gets.
  cbn. rewrite H. reflexivity.
Qed.

(** C3, as the code has it.  A second [End] for a session raises
    nothing: whatever the first call did, the second finds the session
    gone from the active table, returns the success message, and leaves
    the whole process state, every history with it, as the first call
    left it. *)
Theorem end_again_is_silent w sid result1 result2 :
  end_negotiation sid result2 (snd (end_negotiation sid result1 w))
    = (Ok ended_message, snd (end_negotiation sid result1 w)).
Proof. apply end_absent, end_evicts. Qed.

(** C3 does not hold as stated: the second [End] of an active session
    reports success. *)
Lemma end_again_reports_success :
  active_sessions (live None) !! "s1" = Some sample_session /\
  fst (end_negotiation "s1" deal (snd (end_negotiation "s1" deal (live None))))
    = Ok ended_message.
Proof. split; reflexivity. Qed.

(** C6, as the code has it.  [Start] does not compare the target price
    with the maximum budget.  Whenever the product exists, [Start]
    succeeds, whatever the two prices are: it returns the fresh
    identifier, and a session with that identifier, the given
    parameters, [active] status and an empty history is in the active
    table and saved. *)
Theorem start_registers_session params w p :
  JSONDatabase.products (db w) !! NegotiationParams.product_id params = Some p ->
  let sid := uuids w (uuid_draws w) in
  let w' := snd (start_negotiation params w) in
  fst (start_negotiation params w)
    = Ok (mk_start_response sid "Negotiation session started successfully" p) /\
  exists s,
    active_sessions w' !! sid = Some s /\
    JSONDatabase.sessions (db w') !! sid = Some s /\
    NegotiationSession.id s = sid /\
    NegotiationSession.user_params s = params /\
    NegotiationSession.status s = "active" /\
    NegotiationSession.messages s = [].
Proof.
  intros H sid w'. subst w'. rewrite (start_found _ _ _ H). cbn [fst snd].
  split; [reflexivity |].
  exists (new_session params w). unfold after_start. cbn.
  rewrite !lookup_insert_eq. repeat split.
Qed.

Lemma start_registers_session_witness :
  JSONDatabase.products (db (boot None)) !! NegotiationParams.product_id over_budget = Some phone /\
  fst (start_negotiation over_budget (boot None))
    = Ok (mk_start_response "m0" "Negotiation session started successfully" phone) /\
  NegotiationSession.status <$> active_sessions (snd (start_negotiation over_budget (boot None))) !! "m0"
    = Some "active".
Proof.
  split; [reflexivity |].
  pose proof (start_registers_session over_budget (boot None) phone eq_refl) as H.
  cbv zeta in H. destruct H as (Hok & s & Hs & _ & _ & _ & Hstatus & _).
  split; [exact Hok |].
  change (uuids (boot None) (uuid_draws (boot None))) with "m0" in Hs.
  rewrite Hs. cbn. now rewrite Hstatus.
Defined.

(** C6 does not hold as stated: with a target of 7000 above a budget of
    6000, [Start] succeeds. *)
Lemma start_accepts_target_above_budget :
  NegotiationParams.max_budget over_budget < NegotiationParams.target_price over_budget /\
  fst (start_negotiation over_budget (boot None))
    = Ok (mk_start_response "m0" "Negotiation session started successfully" phone).
Proof. split; reflexivity. Qed.

(** When the product is missing, [Start] raises after it has registered
    the session. *)
Example start_missing_product :
  let params := NegotiationParams.mk "p9" 5000 6000 (AStr "diplomatic") in
  fst (start_negotiation params (boot None))
    = Raise (HTTPException 500 (StrOf (HTTPException 404 (Detail "Product not found")))) /\
  NegotiationSession.status <$> active_sessions (snd (start_negotiation params (boot None))) !! "m0"
    = Some "active".
Proof. split; reflexivity. Qed.

(** ** The text-generation service *)

Lemma unknown_value s :
  (forall a, Py.lower s <> approach_value a) ->
  NegotiationApproach_of_value (Py.lower s) = None.
Proof.
  intros H. unfold NegotiationApproach_of_value.
  destruct (String.eqb_spec (Py.lower s) "assertive") as [E | _];
    [now apply (H ASSERTIVE) in E |].
  destruct (String.eqb_spec (Py.lower s) "diplomatic") as [E | _];
    [now apply (H DIPLOMATIC) in E |].
  destruct (String.eqb_spec (Py.lower s) "considerate") as [E | _];
    [now apply (H CONSIDERATE) in E |].
  reflexivity.
Qed.

Lemma to_enum_unknown s :
  (forall a, Py.lower s <> approach_value a) ->
  GeminiAIService.to_enum (AStr s) = DIPLOMATIC.
Proof. intros H. unfold GeminiAIService.to_enum. now rewrite (unknown_value _ H). Qed.

Lemma value_round_trip a : NegotiationApproach_of_value (approach_value a) = Some a.
Proof. now destruct a. Qed.

(** The approach is read without regard to case. *)
Example upper_case_is_parsed : GeminiAIService.to_enum (AStr "ASSERTIVE") = ASSERTIVE.
Proof. reflexivity. Qed.

(** C8. An approach string that is none of assertive, diplomatic and
    considerate (the service compares it in lower case) is read as
    diplomatic: with it, [generate_response] and the keyword fallback
    return exactly what they return for the approach diplomatic, given
    as the enum member or as its name, whatever the other arguments and
    the client are. *)
Theorem unknown_approach_is_diplomatic self s target_price max_budget chat_history product :
  (forall a, Py.lower s <> approach_value a) ->
  GeminiAIService.generate_response self (AStr s) target_price max_budget chat_history product
    = GeminiAIService.generate_response self (AEnum DIPLOMATIC) target_price max_budget
        chat_history product /\
  GeminiAIService.generate_response self (AStr s) target_price max_budget chat_history product
    = GeminiAIService.generate_response self (AStr "diplomatic") target_price max_budget
        chat_history product /\
  GeminiAIService._get_fallback_response (AStr s) target_price chat_history product
    = GeminiAIService._get_fallback_response (AEnum DIPLOMATIC) target_price chat_history product.
Proof.
  intros H. pose proof (to_enum_unknown s H) as E.
  unfold GeminiAIService.generate_response, GeminiAIService._get_fallback_response.
  rewrite E. repeat split.
Qed.

Lemma unknown_approach_is_diplomatic_witness :
  (forall a, Py.lower "Aggressive!" <> approach_value a) /\
  GeminiAIService.generate_response (GeminiAIService.mk None) (AStr "Aggressive!") 5000 6000
    [] (Some phone)
    = Ok "Good day Ravi! I'm very interested in your product. Would you consider an offer of ₹5,000? I believe it's a fair price given the current market.".
Proof.
  assert (H : forall a, Py.lower "Aggressive!" <> approach_value a)
    by (intros [| |]; discriminate).
  split; [exact H |].
  destruct (unknown_approach_is_diplomatic (GeminiAIService.mk None) "Aggressive!" 5000 6000
              [] (Some phone) H) as (-> & _ & _).
  reflexivity.
Defined.

(** C10. With a configured client, a failure of the API call is not
    recovered: the recovery call leaves [product] out, so
    [generate_response] raises [TypeError] to its caller.  A text that a
    configured service returns is always the client's own reply, stripped.
    The fallback text is what is returned when the client was never
    configured: then [generate_response] is [_get_fallback_response]. *)
Theorem api_failure_is_not_recovered client approach target_price max_budget chat_history product :
  (forall prompt e,
     GeminiAIService._build_negotiation_context (GeminiAIService.to_enum approach)
       target_price max_budget chat_history product = Ok prompt ->
     client prompt = Raise e ->
     GeminiAIService.generate_response (GeminiAIService.mk (Some client)) approach
       target_price max_budget chat_history product
       = Raise GeminiAIService.missing_product) /\
  (forall text,
     GeminiAIService.generate_response (GeminiAIService.mk (Some client)) approach
       target_price max_budget chat_history product = Ok text ->
     exists prompt reply,
       GeminiAIService._build_negotiation_context (GeminiAIService.to_enum approach)
         target_price max_budget chat_history product = Ok prompt /\
       client prompt = Ok reply /\ text = Py.strip reply) /\
  GeminiAIService.generate_response (GeminiAIService.mk None) approach
    target_price max_budget chat_history product
    = GeminiAIService._get_fallback_response (AEnum (GeminiAIService.to_enum approach))
        target_price chat_history product.
Proof.
  unfold GeminiAIService.generate_response, GeminiAIService._call_gemini_api. cbn.
  split; [| split; [| reflexivity]].
  - intros prompt e -> Hc. cbn. now rewrite Hc.
  - intros text.
    destruct (GeminiAIService._build_negotiation_context _ _ _ _ _) as [prompt | e]; cbn;
      [| discriminate].
    destruct (client prompt) as [reply | e] eqn:Hc; cbn; [| discriminate].
    intros [= <-]. now exists prompt, reply.
Qed.

Lemma api_failure_is_not_recovered_witness :
  GeminiAIService.generate_response (GeminiAIService.mk (Some (failing_client 0))) (AStr "assertive")
    5000 6000 [] (Some phone)
    = Raise GeminiAIService.missing_product /\
  GeminiAIService.generate_response (GeminiAIService.mk None) (AStr "assertive")
    5000 6000 [] (Some phone)
    = Ok "Hello Ravi! I'm interested in your listing. Based on current market rates, I'd like to offer ₹5,000. Is this acceptable?".
Proof.
  destruct (api_failure_is_not_recovered (failing_client 0) (AStr "assertive") 5000 6000
              [] (Some phone)) as (Hraise & _ & Hnone).
  split.
  - destruct (GeminiAIService._build_negotiation_context
                (GeminiAIService.to_enum (AStr "assertive")) 5000 6000 [] (Some phone))
      as [prompt | e] eqn:Hb; [| discriminate Hb].
    apply (Hraise prompt (ApiError "deadline exceeded") eq_refl). reflexivity.
  - rewrite Hnone. reflexivity.
Defined.

(** ** Histories over a run *)

Lemma nondecreasing_snoc l t :
  nondecreasing l = true -> Forall (fun x => x <= t) l ->
  nondecreasing (l ++ [t]) = true.
Proof.
  induction l as [| a l IH]; [reflexivity |].
  intros Hs Hb. apply Forall_cons in Hb as [Ha Hb].
  destruct l as [| b l].
  - cbn. rewrite andb_true_r. now apply Z.leb_le.
  - cbn in Hs. apply andb_true_iff in Hs as [Hab Hs].
    change (nondecreasing ((a :: b :: l) ++ [t]))
      with ((a <=? b) && nondecreasing ((b :: l) ++ [t])).
    rewrite Hab. cbn [andb]. now apply IH.
Qed.

Lemma stamped_upto_weaken clk n n' s :
  monotone clk -> (n <= n')%nat -> stamped_upto clk n s -> stamped_upto clk n' s.
Proof.
  intros Hm Hn [Hs Hb]. split; [exact Hs |].
  eapply Forall_impl; [exact Hb |]. cbn. intros t Ht.
  specialize (Hm n n' Hn). lia.
Qed.

Lemma stamped_upto_append clk n s m :
  monotone clk -> stamped_upto clk n s -> ChatMessage.timestamp m = clk n ->
  stamped_upto clk (S n) (NegotiationSession.append m s).
Proof.
  intros Hm [Hs Hb] Ht. unfold stamped_upto, timestamps. cbn.
  rewrite fmap_app. cbn. rewrite Ht. split.
  - now apply nondecreasing_snoc.
  - assert (Hle : clk n <= clk (S n)) by (apply Hm; lia).
    apply Forall_app. split.
    + eapply Forall_impl; [exact Hb |]. cbn. intros t Hle'. lia.
    + now apply Forall_singleton.
Qed.

(** A session that the call did not touch keeps its stamps, which stay
    below the later readings. *)
Ltac untouched Hm Hw :=
  match goal with
  | |- _ -> stamped_upto _ _ _ =>
      let H0 := fresh in
      intros H0; eapply stamped_upto_weaken; [exact Hm | | eapply Hw; exact H0]; lia
  end.

Lemma step_clock c w : clock (step c w) = clock w.
Proof.
  destruct c as [sid data | sid data | params | sid result]; cbn.
  - destruct (active_sessions w !! sid) as [s |] eqn:H.
    + now rewrite (user_active _ _ _ _ H).
    + now rewrite (user_absent _ _ _ H).
  - destruct (active_sessions w !! sid) as [s |] eqn:H.
    + rewrite (seller_active _ _ _ _ H). cbn. unfold after_seller.
      now destruct (generation sid data s w).
    + now rewrite (seller_absent _ _ _ H).
  - destruct (JSONDatabase.products (db w) !! NegotiationParams.product_id params) eqn:H.
    + now rewrite (start_found _ _ _ H).
    + now rewrite (start_not_found _ _ H).
  - destruct (active_sessions w !! sid) as [s |] eqn:H.
    + now rewrite (end_active _ _ _ _ H).
    + now rewrite (end_absent _ _ _ H).
Qed.

Lemma step_stamped c w :
  monotone (clock w) -> stamped_in_order w -> stamped_in_order (step c w).
Proof.
  intros Hm Hw. unfold stamped_in_order. rewrite step_clock.
  destruct c as [sid data | sid data | params | sid result]; cbn; intros sid0 s0.
  - destruct (active_sessions w !! sid) as [s |] eqn:H.
    + rewrite (user_active _ _ _ _ H). cbn. rewrite lookup_insert.
      case_decide as Hd.
      * intros [= <-]. apply stamped_upto_append; [exact Hm | now apply (Hw sid) | reflexivity].
      * untouched Hm Hw.
    + rewrite (user_absent _ _ _ H). apply Hw.
  - destruct (active_sessions w !! sid) as [s |] eqn:H.
    + rewrite (seller_active _ _ _ _ H). cbn. unfold after_seller.
      destruct (generation sid data s w) as [text | e]; cbn.
      * rewrite lookup_insert. case_decide as Hd.
        -- intros [= <-].
           apply stamped_upto_append; [exact Hm | | reflexivity].
           apply stamped_upto_append; [exact Hm | now apply (Hw sid) | reflexivity].
        -- rewrite lookup_insert_ne by exact Hd.
           untouched Hm Hw.
      * rewrite lookup_insert. case_decide as Hd.
        -- intros [= <-]. apply stamped_upto_append; [exact Hm | now apply (Hw sid) | reflexivity].
        -- untouched Hm Hw.
    + rewrite (seller_absent _ _ _ H). apply Hw.
  - assert (Hafter : snd (start_negotiation params w) = after_start params w).
    { destruct (JSONDatabase.products (db w) !! NegotiationParams.product_id params) eqn:H.
      - now rewrite (start_found _ _ _ H).
      - now rewrite (start_not_found _ _ H). }
    rewrite Hafter. cbn. rewrite lookup_insert. case_decide as Hd.
    + intros [= <-]. split; [reflexivity | constructor].
    + untouched Hm Hw.
  - destruct (active_sessions w !! sid) as [s |] eqn:H.
    + rewrite (end_active _ _ _ _ H). cbn. rewrite lookup_delete.
      case_decide as Hd; [discriminate |].
      rewrite lookup_insert_ne by exact Hd.
      untouched Hm Hw.
    + rewrite (end_absent _ _ _ H). apply Hw.
Qed.

Lemma run_stamped cs : forall w,
  monotone (clock w) -> stamped_in_order w -> stamped_in_order (run cs w).
Proof.
  induction cs as [| c cs IH]; intros w Hm Hw; [exact Hw |].
  cbn. apply IH.
  - now rewrite step_clock.
  - now apply step_stamped.
Qed.

Lemma inbound_app l1 l2 : inbound (l1 ++ l2) = inbound l1 ++ inbound l2.
Proof. unfold inbound. now rewrite List.filter_app, fmap_app. Qed.

Lemma step_user_same w sid data s :
  active_sessions w !! sid = Some s ->
  exists s', active_sessions (step (OnUserSideMessage sid data) w) !! sid = Some s' /\
    inbound (NegotiationSession.messages s')
      = inbound (NegotiationSession.messages s) ++ [("user", content_of data)].
Proof.
  intros H. cbn [step]. rewrite (user_active _ _ _ _ H).
  unfold after_user. cbn [snd active_sessions].
  eexists. split; [apply lookup_insert_eq |].
  cbn [NegotiationSession.messages NegotiationSession.append].
  now rewrite inbound_app.
Qed.

Lemma step_seller_same w sid data s :
  active_sessions w !! sid = Some s ->
  exists s', active_sessions (step (OnSellerMessage sid data) w) !! sid = Some s' /\
    inbound (NegotiationSession.messages s')
      = inbound (NegotiationSession.messages s) ++ [("seller", content_of data)].
Proof.
  intros H. cbn [step]. rewrite (seller_active _ _ _ _ H).
  unfold after_seller. cbn [snd].
  destruct (generation sid data s w) as [text | e]; cbn [active_sessions];
    (eexists; split; [apply lookup_insert_eq |]);
    cbn [NegotiationSession.messages NegotiationSession.append].
  - rewrite !inbound_app. cbn. now rewrite app_nil_r.
  - now rewrite inbound_app.
Qed.

Lemma step_relay_other c w sid :
  is_relay c = true ->
  match c with
  | OnUserSideMessage sid' _ | OnSellerMessage sid' _ => sid' <> sid
  | _ => True
  end ->
  active_sessions (step c w) !! sid = active_sessions w !! sid.
Proof.
  destruct c as [sid' data | sid' data | params | sid' result]; cbn; try discriminate;
    intros _ Hne.
  - destruct (active_sessions w !! sid') as [s |] eqn:H.
    + rewrite (user_active _ _ _ _ H). cbn. now rewrite lookup_insert_ne.
    + now rewrite (user_absent _ _ _ H).
  - destruct (active_sessions w !! sid') as [s |] eqn:H.
    + rewrite (seller_active _ _ _ _ H). cbn. unfold after_seller.
      destruct (generation sid' data s w); cbn; now rewrite !lookup_insert_ne.
    + now rewrite (seller_absent _ _ _ H).
Qed.

Lemma run_relay_order cs : forall w sid s,
  forallb is_relay cs = true ->
  active_sessions w !! sid = Some s ->
  exists s', active_sessions (run cs w) !! sid = Some s' /\
    inbound (NegotiationSession.messages s')
      = inbound (NegotiationSession.messages s) ++ accepted_for sid cs.
Proof.
  induction cs as [| c cs IH]; intros w sid s Hr H.
  - exists s. cbn. now rewrite app_nil_r.
  - cbn in Hr. apply andb_true_iff in Hr as [Hc Hr].
    destruct c as [sid' data | sid' data | params | sid' result]; try discriminate Hc;
      cbn [run accepted_for]; destruct (String.eqb_spec sid' sid) as [-> | Hne].
    + destruct (step_user_same w sid data s H) as (s1 & H1 & E1).
      destruct (IH _ sid s1 Hr H1) as (s' & H' & E').
      exists s'. split; [exact H' |]. now rewrite E', E1, <- app_assoc.
    + apply (IH _ sid s Hr).
      now rewrite (step_relay_other (OnUserSideMessage sid' data) w sid).
    + destruct (step_seller_same w sid data s H) as (s1 & H1 & E1).
      destruct (IH _ sid s1 Hr H1) as (s' & H' & E').
      exists s'. split; [exact H' |]. now rewrite E', E1, <- app_assoc.
    + apply (IH _ sid s Hr).
      now rewrite (step_relay_other (OnSellerMessage sid' data) w sid).
Qed.

(** C7, as the code has it.  Each Message is stamped with a reading of
    the wall clock taken as it is appended.  Provided the clock never
    goes back, after any run of calls every active session's history is
    stamped in non-decreasing order.  And, whatever the clock does, a run
    of relay calls leaves in each session's history the inbound messages
    it held, followed by those the calls addressed to the session, in
    the order of the calls. *)
Theorem histories_follow_the_calls w :
  (monotone (clock w) -> stamped_in_order w ->
   forall cs sid s, active_sessions (run cs w) !! sid = Some s ->
     nondecreasing (timestamps s) = true) /\
  (forall cs sid s, forallb is_relay cs = true ->
     active_sessions w !! sid = Some s ->
     exists s', active_sessions (run cs w) !! sid = Some s' /\
       inbound (NegotiationSession.messages s')
         = inbound (NegotiationSession.messages s) ++ accepted_for sid cs).
Proof.
  split.
  - intros Hm Hw cs sid s H. now apply (run_stamped cs w Hm Hw sid s).
  - intros cs sid s. apply run_relay_order.
Qed.

Lemma histories_follow_the_calls_witness :
  (timestamps <$>
     active_sessions
       (run [OnSellerMessage "s1" {["content" := "hi"]};
             OnUserSideMessage "s1" {["content" := "final offer 5500"]}]
            (live None)) !! "s1")
    = Some [100; 101; 102] /\
  nondecreasing [100; 101; 102] = true /\
  exists s',
    active_sessions
      (run [OnSellerMessage "s1" {["content" := "hi"]};
            OnUserSideMessage "s1" {["content" := "final offer 5500"]}]
           (live None)) !! "s1" = Some s' /\
    inbound (NegotiationSession.messages s')
      = [("seller", "hi"); ("user", "final offer 5500")].
Proof.
  destruct (histories_follow_the_calls (live None)) as [Hstamps Horder].
  split; [reflexivity |]. split.
  - change [100; 101; 102] with
      (timestamps
         (NegotiationSession.mk "s1" "p1" sample_params "active" 0
            [ChatMessage.mk "m0" "s1" "seller" "hi" 100 "human";
             ChatMessage.mk "m1" "s1" "ai"
               "Hi there Ravi! Yes, I'm interested in your listing. The item looks great. Would ₹5,000 work for you?"
               101 "ai";
             ChatMessage.mk "m2" "s1" "user" "final offer 5500" 102 "override"]
            JNull JNull None)).
    apply (Hstamps) with
      (cs := [OnSellerMessage "s1" {["content" := "hi"]};
              OnUserSideMessage "s1" {["content" := "final offer 5500"]}])
      (sid := "s1").
    + intros i j Hij. cbn. lia.
    + intros sid s Hs. cbn in Hs.
      destruct (decide (sid = "s1")) as [-> | Hne].
      * rewrite lookup_singleton_eq in Hs. injection Hs as <-.
        split; [reflexivity | constructor].
      * rewrite lookup_singleton_ne in Hs by congruence. discriminate Hs.
    + vm_compute. reflexivity.
  - destruct (Horder
                [OnSellerMessage "s1" {["content" := "hi"]};
                 OnUserSideMessage "s1" {["content" := "final offer 5500"]}]
                "s1" sample_session eq_refl eq_refl) as (s' & Hs' & Hin).
    exists s'. split; [exact Hs' |]. rewrite Hin. reflexivity.
Defined.

(** The stamps are only as ordered as the clock: the code reads
    [datetime.now()] and does not clamp it, so when the wall clock is set
    back between two messages the history is stamped 10 and then 5. *)
Example clock_set_back :
  (timestamps <$> active_sessions (set_back (lonely None)) !! "s1") = Some [] /\
  (timestamps <$>
     active_sessions
       (run [OnUserSideMessage "s1" {["content" := "a"]};
             OnUserSideMessage "s1" {["content" := "b"]}]
            (set_back (lonely None))) !! "s1")
    = Some [10; 5] /\
  nondecreasing [10; 5] = false.
Proof. repeat split. Qed.

(** C7 does not hold as stated: without the condition on the clock the
    stamps need not be in order.  From a world whose one history is
    empty, two user messages read a clock that was set back from 10 to
    5 and leave a history stamped 10 and then 5. *)
Lemma clock_set_back_breaks_order :
  ~ (forall w, stamped_in_order w ->
       forall cs sid s, active_sessions (run cs w) !! sid = Some s ->
         nondecreasing (timestamps s) = true).
Proof.
  intros Hc.
  assert (Hw : stamped_in_order (set_back (lonely None))).
  { intros sid s Hs. cbn in Hs.
    destruct (decide (sid = "s1")) as [-> | Hne].
    - rewrite lookup_singleton_eq in Hs. injection Hs as <-.
      split; [reflexivity | constructor].
    - rewrite lookup_singleton_ne in Hs by congruence. discriminate Hs. }
  destruct clock_set_back as (_ & Hrun & Hbad).
  destruct (active_sessions
              (run [OnUserSideMessage "s1" {["content" := "a"]};
                    OnUserSideMessage "s1" {["content" := "b"]}]
                 (set_back (lonely None))) !! "s1") as [s |] eqn:E;
    [| discriminate Hrun].
  specialize (Hc _ Hw _ _ _ E). cbn in Hrun. injection Hrun as Hts.
  rewrite Hts, Hbad in Hc. discriminate Hc.
Qed.


(** * Further properties of the code *)

(** ** The HTTP endpoints *)

Lemma get_product_found w pid p :
  JSONDatabase.products (db w) !! pid = Some p ->
  get_product pid w = (Ok p, w).
Proof.
  intros H. unfold get_product, try_except, mbind, M_bind, db_get_product, gets.
  now rewrite H.
Qed.

Lemma get_product_missing w pid :
  JSONDatabase.products (db w) !! pid = None ->
  get_product pid w
    = (Raise (HTTPException 500 (StrOf (HTTPException 404 (Detail "Product not found")))), w).
Proof.
  intros H. unfold get_product, try_except, mbind, M_bind, db_get_product, gets.
  now rewrite H.
Qed.

Lemma get_session_active w sid s :
  active_sessions w !! sid = Some s ->
  get_negotiation_session sid w = (Ok s, w).
Proof.
  intros H. unfold get_negotiation_session, try_except, mbind, M_bind, gets.
  now rewrite H.
Qed.

Lemma get_session_saved w sid s :
  active_sessions w !! sid = None ->
  JSONDatabase.sessions (db w) !! sid = Some s ->
  get_negotiation_session sid w = (Ok s, w).
Proof.
  intros H Hs.
  unfold get_negotiation_session, try_except, mbind, M_bind, db_get_session, gets.
  rewrite H. cbn. now rewrite Hs.
Qed.

Lemma get_session_unknown w sid :
  active_sessions w !! sid = None ->
  JSONDatabase.sessions (db w) !! sid = None ->
  get_negotiation_session sid w
    = (Raise (HTTPException 500 (StrOf (HTTPException 404 (Detail "Session not found")))), w).
Proof.
  intros H Hs.
  unfold get_negotiation_session, try_except, mbind, M_bind, db_get_session, gets.
  rewrite H. cbn. now rewrite Hs.
Qed.

(** X1. No endpoint lets a 404 out.  Whatever [get_product],
    [get_negotiation_session] and [start_negotiation] raise is an
    [HTTPException] with status 500, the "not found" of the body
    included, because the [except Exception] around the body catches the
    404 and wraps it; [end_negotiation] raises nothing at all.  The two
    read endpoints leave the state as it was. *)
Theorem endpoints_raise_only_500 w :
  (forall pid e, fst (get_product pid w) = Raise e ->
     exists d, e = HTTPException 500 d) /\
  (forall sid e, fst (get_negotiation_session sid w) = Raise e ->
     exists d, e = HTTPException 500 d) /\
  (forall params e, fst (start_negotiation params w) = Raise e ->
     exists d, e = HTTPException 500 d) /\
  (forall sid result, fst (end_negotiation sid result w) = Ok ended_message) /\
  (forall pid, snd (get_product pid w) = w) /\
  (forall sid, snd (get_negotiation_session sid w) = w).
Proof.
  repeat split.
  - intros pid e.
    destruct (JSONDatabase.products (db w) !! pid) as [p |] eqn:H.
    + rewrite (get_product_found _ _ _ H). discriminate.
    + rewrite (get_product_missing _ _ H). cbn. intros [= <-]. eauto.
  - intros sid e.
    destruct (active_sessions w !! sid) as [s |] eqn:H.
    { rewrite (get_session_active _ _ _ H). discriminate. }
    destruct (JSONDatabase.sessions (db w) !! sid) as [s |] eqn:Hs.
    + rewrite (get_session_saved _ _ _ H Hs). discriminate.
    + rewrite (get_session_unknown _ _ H Hs). cbn. intros [= <-]. eauto.
  - intros params e.
    destruct (JSONDatabase.products (db w) !! NegotiationParams.product_id params) eqn:H.
    + rewrite (start_found _ _ _ H). discriminate.
    + rewrite (start_not_found _ _ H). cbn. intros [= <-]. eauto.
  - intros sid result.
    destruct (active_sessions w !! sid) as [s |] eqn:H.
    + now rewrite (end_active _ _ _ _ H).
    + now rewrite (end_absent _ _ _ H).
  - intros pid.
    destruct (JSONDatabase.products (db w) !! pid) as [p |] eqn:H.
    + now rewrite (get_product_found _ _ _ H).
    + now rewrite (get_product_missing _ _ H).
  - intros sid.
    destruct (active_sessions w !! sid) as [s |] eqn:H.
    { now rewrite (get_session_active _ _ _ H). }
    destruct (JSONDatabase.sessions (db w) !! sid) as [s |] eqn:Hs.
    + now rewrite (get_session_saved _ _ _ H Hs).
    + now rewrite (get_session_unknown _ _ H Hs).
Qed.

Lemma endpoints_raise_only_500_witness :
  fst (get_product "p9" (boot None))
    = Raise (HTTPException 500 (StrOf (HTTPException 404 (Detail "Product not found")))) /\
  exists d, HTTPException 500 (StrOf (HTTPException 404 (Detail "Product not found")))
            = HTTPException 500 d.
Proof.
  split; [reflexivity |].
  destruct (endpoints_raise_only_500 (boot None)) as (Hp & _).
  apply (Hp "p9"). reflexivity.
Defined.

(** X2. A [Start] for a product that is not in the catalogue fails, but
    only after the session has been created: the caller gets a 500 and no
    identifier, while a session with [active] status and empty history
    stays in the active table and in the saved sessions. *)
Theorem start_missing_product_leaves_session params w :
  JSONDatabase.products (db w) !! NegotiationParams.product_id params = None ->
  fst (start_negotiation params w)
    = Raise (HTTPException 500 (StrOf (HTTPException 404 (Detail "Product not found")))) /\
  active_sessions (snd (start_negotiation params w)) !! uuids w (uuid_draws w)
    = Some (new_session params w) /\
  JSONDatabase.sessions (db (snd (start_negotiation params w))) !! uuids w (uuid_draws w)
    = Some (new_session params w) /\
  NegotiationSession.status (new_session params w) = "active" /\
  NegotiationSession.messages (new_session params w) = [].
Proof.
  intros H. rewrite (start_not_found _ _ H). cbn.
  rewrite !lookup_insert_eq. repeat split.
Qed.

Lemma start_missing_product_leaves_session_witness :
  JSONDatabase.products (db (boot None)) !! "p9" = None /\
  NegotiationSession.status <$>
    active_sessions
      (snd (start_negotiation (NegotiationParams.mk "p9" 5000 6000 (AStr "diplomatic"))
              (boot None))) !! "m0"
    = Some "active".
Proof.
  split; [reflexivity |].
  destruct (start_missing_product_leaves_session
              (NegotiationParams.mk "p9" 5000 6000 (AStr "diplomatic")) (boot None) eq_refl)
    as (_ & Hs & _).
  change (uuids (boot None) (uuid_draws (boot None))) with "m0" in Hs.
  now rewrite Hs.
Defined.

(** X3. [End] on an active session: the call succeeds; the session
    leaves the active table and every other entry stays; the saved copy
    keeps the history and carries status [completed], the final price of
    the request body ([None] when the key is missing), its outcome
    ([unknown] when the key is missing) and the clock reading as end
    time; and one [session_ended] payload with the request body goes to
    the user side and then one to the seller side. *)
Theorem end_completes_and_evicts w sid result s :
  active_sessions w !! sid = Some s ->
  fst (end_negotiation sid result w) = Ok ended_message /\
  active_sessions (snd (end_negotiation sid result w)) = delete sid (active_sessions w) /\
  (exists s',
     JSONDatabase.sessions (db (snd (end_negotiation sid result w))) !! NegotiationSession.id s
       = Some s' /\
     NegotiationSession.status s' = "completed" /\
     NegotiationSession.messages s' = NegotiationSession.messages s /\
     NegotiationSession.final_price s' = dict_get result "final_price" JNull /\
     NegotiationSession.outcome s' = dict_get result "outcome" (JStr "unknown") /\
     NegotiationSession.ended_at s' = Some (clock w (clock_reads w))) /\
  wire (snd (end_negotiation sid result w))
    = wire w
      ++ ConnectionManager.route (manager w) UserSide sid (session_ended_payload result)
      ++ ConnectionManager.route (manager w) SellerSide sid (session_ended_payload result) /\
  payload_type (session_ended_payload result) = Some (JStr "session_ended") /\
  field (session_ended_payload result) "result" = Some (JObj result).
Proof.
  intros H. rewrite (end_active _ _ _ _ H). unfold after_end. cbn.
  split; [reflexivity |]. split; [apply delete_insert_eq |].
  split; [| split; [now rewrite <- app_assoc | split; reflexivity]].
  eexists. split; [apply lookup_insert_eq |]. repeat split.
Qed.

Lemma end_completes_and_evicts_witness :
  active_sessions (live None) !! "s1" = Some sample_session /\
  active_sessions (snd (end_negotiation "s1" [] (live None))) !! "s1" = None /\
  (NegotiationSession.outcome <$>
     JSONDatabase.sessions (db (snd (end_negotiation "s1" [] (live None)))) !! "s1")
    = Some (JStr "unknown") /\
  wire (snd (end_negotiation "s1" [] (live None)))
    = [(2%nat, session_ended_payload []); (1%nat, session_ended_payload [])].
Proof.
  split; [reflexivity |].
  destruct (end_completes_and_evicts (live None) "s1" [] sample_session eq_refl)
    as (_ & Hact & (s' & Hs' & _ & _ & _ & Hout & _) & Hwire & _).
  split; [now rewrite Hact |]. split.
  - change (NegotiationSession.id sample_session) with "s1" in Hs'.
    rewrite Hs'. cbn. now rewrite Hout.
  - exact Hwire.
Defined.

(** X4. [Get] follows the session through its life.  While the session
    is active, [Get] returns the live object, whatever has been saved
    under its identifier; after [End], it returns the saved copy, which
    is the session as completed by [End]; and an identifier that is
    neither active nor saved gives a 500. *)
Theorem get_follows_the_session w sid result s :
  active_sessions w !! sid = Some s ->
  NegotiationSession.id s = sid ->
  get_negotiation_session sid w = (Ok s, w) /\
  get_negotiation_session sid (snd (end_negotiation sid result w))
    = (Ok (NegotiationSession.complete (dict_get result "final_price" JNull)
             (dict_get result "outcome" (JStr "unknown")) (clock w (clock_reads w)) s),
       snd (end_negotiation sid result w)).
Proof.
  intros H Hid. split; [now apply get_session_active |].
  apply get_session_saved; [apply end_evicts |].
  rewrite (end_active _ _ _ _ H). unfold after_end. cbn.
  rewrite Hid. apply lookup_insert_eq.
Qed.

Lemma get_follows_the_session_witness :
  active_sessions (live None) !! "s1" = Some sample_session /\
  fst (get_negotiation_session "s1" (live None)) = Ok sample_session /\
  (NegotiationSession.status <$>
     match fst (get_negotiation_session "s1" (snd (end_negotiation "s1" deal (live None)))) with
     | Ok s => Some s
     | Raise _ => None
     end) = Some "completed".
Proof.
  split; [reflexivity |].
  destruct (get_follows_the_session (live None) "s1" deal sample_session eq_refl eq_refl)
    as [Hlive Hdone].
  split; [now rewrite Hlive | now rewrite Hdone].
Defined.

(** X5. After [End], the relay is deaf to the session: a seller or user
    message for the ended session is dropped without an error, an entry
    in any history, a delivery or a generation call, since both handlers
    find the session gone from the active table. *)
Theorem messages_after_end_are_dropped w sid result data :
  handle_seller_message sid data (snd (end_negotiation sid result w))
    = (Ok (), snd (end_negotiation sid result w)) /\
  handle_user_message sid data (snd (end_negotiation sid result w))
    = (Ok (), snd (end_negotiation sid result w)).
Proof.
  split; [apply seller_absent | apply user_absent]; apply end_evicts.
Qed.

(** ** The session table over a run *)

Lemma well_kept_append w sid s m w' :
  well_kept w ->
  active_sessions w !! sid = Some s ->
  ChatMessage.session_id m = sid ->
  active_sessions w' = <[sid := NegotiationSession.append m s]> (active_sessions w) ->
  JSONDatabase.sessions (db w')
    = <[sid := NegotiationSession.append m s]> (JSONDatabase.sessions (db w)) ->
  well_kept w'.
Proof.
  intros Hw H Hm Ha Hd sid0 s0. rewrite Ha, Hd, !lookup_insert.
  destruct (Hw sid s H) as (Hid & Hst & Hms & _).
  case_decide as Hdec.
  - intros [= <-]. subst sid0. cbn. repeat split; try assumption.
    apply Forall_app. split; [exact Hms | now apply Forall_singleton].
  - intros H0. apply (Hw sid0 s0 H0).
Qed.

Lemma step_well_kept c w : well_kept w -> well_kept (step c w).
Proof.
  intros Hw.
  destruct c as [sid data | sid data | params | sid result]; cbn.
  - destruct (active_sessions w !! sid) as [s |] eqn:H.
    + rewrite (user_active _ _ _ _ H).
      destruct (Hw sid s H) as (Hid & _).
      apply (well_kept_append w sid s (user_message sid data w)); try done.
      cbn. now rewrite Hid.
    + now rewrite (user_absent _ _ _ H).
  - destruct (active_sessions w !! sid) as [s |] eqn:H.
    + rewrite (seller_active _ _ _ _ H). cbn. unfold after_seller.
      destruct (Hw sid s H) as (Hid & _).
      set (m1 := seller_message sid data w).
      set (w1 := mkWorld (<[sid := NegotiationSession.append m1 s]> (active_sessions w))
                   (manager w)
                   (JSONDatabase.save (NegotiationSession.append m1 s) (db w))
                   (wire w) (clock w) (clock_reads w) (uuids w) (uuid_draws w)
                   (gemini w) (generate_calls w)).
      assert (Hw1 : well_kept w1).
      { apply (well_kept_append w sid s m1); try done. cbn. now rewrite Hid. }
      destruct (generation sid data s w) as [text | e].
      * apply (well_kept_append w1 sid (NegotiationSession.append m1 s)
                 (ai_message sid text w)); try done.
        -- cbn. apply lookup_insert_eq.
        -- cbn. rewrite Hid. now rewrite insert_insert_eq.
      * intros sid0 s0 H0. apply (Hw1 sid0 s0 H0).
    + now rewrite (seller_absent _ _ _ H).
  - assert (Hafter : snd (start_negotiation params w) = after_start params w).
    { destruct (JSONDatabase.products (db w) !! NegotiationParams.product_id params) eqn:H.
      - now rewrite (start_found _ _ _ H).
      - now rewrite (start_not_found _ _ H). }
    rewrite Hafter. intros sid0 s0. cbn. rewrite !lookup_insert.
    case_decide as Hdec.
    + intros [= <-]. subst sid0. repeat split. constructor.
    + intros H0. apply (Hw sid0 s0 H0).
  - destruct (active_sessions w !! sid) as [s |] eqn:H.
    + rewrite (end_active _ _ _ _ H). intros sid0 s0. cbn.
      destruct (Hw sid s H) as (Hid & _).
      rewrite lookup_delete. case_decide as Hdec; [discriminate |].
      rewrite lookup_insert_ne by exact Hdec.
      rewrite Hid, lookup_insert_ne by exact Hdec.
      intros H0. apply (Hw sid0 s0 H0).
    + now rewrite (end_absent _ _ _ H).
Qed.

(** X6. The session table stays in good order over any run of calls.
    If every active session is filed under its own identifier, has
    status [active], holds only messages that name it and equals its
    saved copy, then the same is true after any sequence of [Start],
    [End] and relay calls; a freshly started process, whose table is
    empty, is in good order. *)
Theorem run_keeps_the_table_in_order w cs :
  well_kept w -> well_kept (run cs w).
Proof.
  revert w. induction cs as [| c cs IH]; intros w Hw; [exact Hw |].
  cbn. apply IH. now apply step_well_kept.
Qed.

Lemma run_keeps_the_table_in_order_witness :
  well_kept (boot None) /\
  well_kept
    (run [OnStart sample_params;
          OnSellerMessage "m0" {["content" := "hi"]};
          OnUserSideMessage "m0" {["content" := "final offer 5500"]}]
       (boot None)).
Proof.
  assert (H : well_kept (boot None)).
  { intros sid s Hs. cbn in Hs. rewrite lookup_empty in Hs. discriminate Hs. }
  split; [exact H |].
  apply (run_keeps_the_table_in_order (boot None)). exact H.
Defined.

Lemma step_relay_extends c w sid s :
  is_relay c = true ->
  active_sessions w !! sid = Some s ->
  exists s' extra,
    active_sessions (step c w) !! sid = Some s' /\
    NegotiationSession.messages s' = NegotiationSession.messages s ++ extra /\
    NegotiationSession.id s' = NegotiationSession.id s /\
    NegotiationSession.user_params s' = NegotiationSession.user_params s /\
    NegotiationSession.status s' = NegotiationSession.status s.
Proof.
  intros Hc H.
  assert (Hsame : active_sessions (step c w) !! sid = active_sessions w !! sid ->
                  exists s' extra,
                    active_sessions (step c w) !! sid = Some s' /\
                    NegotiationSession.messages s' = NegotiationSession.messages s ++ extra /\
                    NegotiationSession.id s' = NegotiationSession.id s /\
                    NegotiationSession.user_params s' = NegotiationSession.user_params s /\
                    NegotiationSession.status s' = NegotiationSession.status s).
  { intros E. exists s, []. rewrite E, app_nil_r. now repeat split. }
  destruct c as [sid' data | sid' data | params | sid' result]; try discriminate Hc;
    (destruct (decide (sid' = sid)) as [-> | Hne];
     [| apply Hsame; now apply step_relay_other]).
  - cbn [step]. rewrite (user_active _ _ _ _ H). unfold after_user. cbn [snd active_sessions].
    rewrite lookup_insert_eq. eexists _, [_]. repeat split.
  - cbn [step]. rewrite (seller_active _ _ _ _ H). unfold after_seller. cbn [snd].
    destruct (generation sid data s w) as [text | e]; cbn [active_sessions];
      rewrite lookup_insert_eq.
    + eexists _, [_; _]. split; [reflexivity |]. cbn. rewrite <- app_assoc. repeat split.
    + eexists _, [_]. repeat split.
Qed.

Lemma step_relay_absent c w sid :
  is_relay c = true ->
  active_sessions w !! sid = None ->
  active_sessions (step c w) !! sid = None.
Proof.
  intros Hc H.
  destruct c as [sid' data | sid' data | params | sid' result]; try discriminate Hc;
    (destruct (decide (sid' = sid)) as [-> | Hne];
     [| now rewrite step_relay_other]); cbn [step].
  - now rewrite (user_absent _ _ _ H).
  - now rewrite (seller_absent _ _ _ H).
Qed.

Lemma run_relay_extends cs : forall w sid,
  forallb is_relay cs = true ->
  match active_sessions w !! sid with
  | None => active_sessions (run cs w) !! sid = None
  | Some s =>
      exists s' extra,
        active_sessions (run cs w) !! sid = Some s' /\
        NegotiationSession.messages s' = NegotiationSession.messages s ++ extra /\
        NegotiationSession.id s' = NegotiationSession.id s /\
        NegotiationSession.user_params s' = NegotiationSession.user_params s /\
        NegotiationSession.status s' = NegotiationSession.status s
  end.
Proof.
  induction cs as [| c cs IH]; intros w sid Hr.
  - cbn. destruct (active_sessions w !! sid) as [s |]; [| reflexivity].
    exists s, []. rewrite app_nil_r. now repeat split.
  - cbn in Hr. apply andb_true_iff in Hr as [Hc Hr]. cbn [run].
    specialize (IH (step c w) sid Hr).
    destruct (active_sessions w !! sid) as [s |] eqn:H.
    + destruct (step_relay_extends c w sid s Hc H) as (s1 & e1 & H1 & Hm1 & Hi1 & Hp1 & Hs1).
      rewrite H1 in IH. destruct IH as (s' & e2 & H' & Hm' & Hi' & Hp' & Hs').
      exists s', (e1 ++ e2). split; [exact H' |].
      rewrite Hm', Hm1, <- app_assoc. repeat split; congruence.
    + now rewrite (step_relay_absent c w sid Hc H) in IH.
Qed.

(** X7. Relay calls only ever append.  Over a run of seller and user
    messages no session appears in the active table and none leaves it,
    and each session keeps its identifier, parameters and status while
    its history keeps every message it had, in place, with the new ones
    behind them. *)
Theorem relay_calls_only_append cs : forall w sid,
  forallb is_relay cs = true ->
  match active_sessions w !! sid with
  | None => active_sessions (run cs w) !! sid = None
  | Some s =>
      exists s' extra,
        active_sessions (run cs w) !! sid = Some s' /\
        NegotiationSession.messages s' = NegotiationSession.messages s ++ extra /\
        NegotiationSession.id s' = NegotiationSession.id s /\
        NegotiationSession.user_params s' = NegotiationSession.user_params s /\
        NegotiationSession.status s' = NegotiationSession.status s
  end.
Proof. apply run_relay_extends. Qed.

Lemma relay_calls_only_append_witness :
  forallb is_relay
    [OnSellerMessage "s1" {["content" := "hi"]};
     OnUserSideMessage "s2" {["content" := "anyone?"]}] = true /\
  active_sessions
    (run [OnSellerMessage "s1" {["content" := "hi"]};
          OnUserSideMessage "s2" {["content" := "anyone?"]}]
       (live None)) !! "s2" = None.
Proof.
  split; [reflexivity |].
  apply (relay_calls_only_append
           [OnSellerMessage "s1" {["content" := "hi"]};
            OnUserSideMessage "s2" {["content" := "anyone?"]}]
           (live None) "s2").
  reflexivity.
Defined.

Lemma step_wire c w sid' :
  addressed c = Some sid' ->
  exists new, wire (step c w) = wire w ++ new /\
    forall d, d ∈ new -> exists r, ConnectionManager.lookup (manager w) r sid' = Some (fst d).
Proof.
  assert (Hnil : exists new, wire w = wire w ++ new /\
            forall d, d ∈ new ->
              exists r, ConnectionManager.lookup (manager w) r sid' = Some (fst d)).
  { exists []. rewrite app_nil_r. split; [reflexivity |]. intros d Hd.
    now apply not_elem_of_nil in Hd. }
  destruct c as [sid data | sid data | params | sid result]; cbn [addressed];
    try discriminate; intros [= ->]; cbn [step].
  - destruct (active_sessions w !! sid') as [s |] eqn:H.
    + rewrite (user_active _ _ _ _ H). unfold after_user. cbn [snd wire].
      eexists. split; [reflexivity |]. intros d Hd.
      apply elem_of_route in Hd as [Hd _]. eauto.
    + now rewrite (user_absent _ _ _ H).
  - destruct (active_sessions w !! sid') as [s |] eqn:H.
    + rewrite (seller_active _ _ _ _ H). unfold after_seller. cbn [snd].
      destruct (generation sid' data s w) as [text | e]; cbn [wire];
        rewrite <- !app_assoc; (eexists; split; [reflexivity |]); intros d Hd;
        rewrite !elem_of_app in Hd.
      * destruct Hd as [Hd | [Hd | Hd]]; apply elem_of_route in Hd as [Hd _]; eauto.
      * destruct Hd as [Hd | Hd]; apply elem_of_route in Hd as [Hd _]; eauto.
    + now rewrite (seller_absent _ _ _ H).
  - destruct (active_sessions w !! sid') as [s |] eqn:H.
    + rewrite (end_active _ _ _ _ H). unfold after_end. cbn [snd wire].
      rewrite <- !app_assoc. eexists. split; [reflexivity |]. intros d Hd.
      rewrite !elem_of_app in Hd.
      destruct Hd as [Hd | Hd]; apply elem_of_route in Hd as [Hd _]; eauto.
    + now rewrite (end_absent _ _ _ H).
Qed.

(** X8. Sessions are isolated from one another.  A seller message, a
    user message or an [End] addressed to one session leaves the entry
    of every other session in the active table exactly as it was, and
    every payload the call delivers goes to an endpoint registered for
    the session the call addresses. *)
Theorem calls_are_isolated c w sid' :
  addressed c = Some sid' ->
  (forall sid, sid <> sid' ->
     active_sessions (step c w) !! sid = active_sessions w !! sid) /\
  (forall d, d ∈ delivered_since w (step c w) ->
     exists r, ConnectionManager.lookup (manager w) r sid' = Some (fst d)).
Proof.
  intros Hc. split.
  - intros sid Hne.
    destruct c as [sid0 data | sid0 data | params | sid0 result]; cbn [addressed] in Hc;
      try discriminate; injection Hc as ->.
    + now apply (step_relay_other (OnUserSideMessage sid' data)).
    + now apply (step_relay_other (OnSellerMessage sid' data)).
    + cbn [step]. destruct (active_sessions w !! sid') as [s |] eqn:H.
      * rewrite (end_active _ _ _ _ H). cbn.
        rewrite lookup_delete_ne, lookup_insert_ne; congruence.
      * now rewrite (end_absent _ _ _ H).
  - destruct (step_wire c w sid' Hc) as (new & Hw & Hnew).
    unfold delivered_since. rewrite Hw, drop_app_length. exact Hnew.
Qed.

Lemma calls_are_isolated_witness :
  addressed (OnEnd "s1" deal) = Some "s1" /\
  active_sessions (step (OnEnd "s1" deal) (live None)) !! "s2"
    = active_sessions (live None) !! "s2".
Proof.
  split; [reflexivity |].
  destruct (calls_are_isolated (OnEnd "s1" deal) (live None) "s1" eq_refl) as [H _].
  apply H. discriminate.
Defined.

Lemma seller_calls_on_same m1 m2 cs :
  (forall sid, m1 !! sid = None <-> m2 !! sid = None) ->
  seller_calls_on m1 cs = seller_calls_on m2 cs.
Proof.
  intros Hdom. induction cs as [| c cs IH]; [reflexivity |].
  destruct c as [sid data | sid data | params | sid result]; cbn; try exact IH.
  specialize (Hdom sid).
  destruct (m1 !! sid), (m2 !! sid); try (now rewrite IH).
  - destruct Hdom as [_ Hd]. now specialize (Hd eq_refl).
  - destruct Hdom as [Hd _]. now specialize (Hd eq_refl).
Qed.

Lemma step_relay_dom c w sid :
  is_relay c = true ->
  active_sessions (step c w) !! sid = None <-> active_sessions w !! sid = None.
Proof.
  intros Hc. split.
  - intros Hn. destruct (active_sessions w !! sid) as [s |] eqn:H; [| reflexivity].
    destruct (step_relay_extends c w sid s Hc H) as (s' & ? & H' & _). congruence.
  - now apply step_relay_absent.
Qed.

Lemma step_generate_calls c w :
  generate_calls (step c w)
    = match c with
      | OnSellerMessage sid _ =>
          match active_sessions w !! sid with
          | Some _ => S (generate_calls w)
          | None => generate_calls w
          end
      | _ => generate_calls w
      end.
Proof.
  destruct c as [sid data | sid data | params | sid result]; cbn [step].
  - destruct (active_sessions w !! sid) as [s |] eqn:H.
    + now rewrite (user_active _ _ _ _ H).
    + now rewrite (user_absent _ _ _ H).
  - destruct (active_sessions w !! sid) as [s |] eqn:H.
    + rewrite (seller_active _ _ _ _ H). unfold after_seller. cbn [snd].
      now destruct (generation sid data s w).
    + now rewrite (seller_absent _ _ _ H).
  - destruct (JSONDatabase.products (db w) !! NegotiationParams.product_id params) eqn:H.
    + now rewrite (start_found _ _ _ H).
    + now rewrite (start_not_found _ _ H).
  - destruct (active_sessions w !! sid) as [s |] eqn:H.
    + now rewrite (end_active _ _ _ _ H).
    + now rewrite (end_absent _ _ _ H).
Qed.

(** X9. The generation service is called once for each seller message
    that finds its session, and never otherwise: a user message, a
    [Start], an [End] and a seller message for an unknown session leave
    the count of calls as it was, and over a run of relay calls the
    count grows by the number of seller messages addressed to sessions
    of the active table. *)
Theorem one_generation_call_per_seller_message w :
  (forall c,
     match c with
     | OnSellerMessage sid _ =>
         active_sessions w !! sid = None -> generate_calls (step c w) = generate_calls w
     | _ => generate_calls (step c w) = generate_calls w
     end) /\
  (forall cs, forallb is_relay cs = true ->
     generate_calls (run cs w)
       = (generate_calls w + seller_calls_on (active_sessions w) cs)%nat).
Proof.
  split.
  - intros c. rewrite step_generate_calls. destruct c; try reflexivity. now intros ->.
  - intros cs. revert w. induction cs as [| c cs IH]; intros w Hr; [cbn; lia |].
    cbn in Hr. apply andb_true_iff in Hr as [Hc Hr]. cbn [run].
    rewrite (IH _ Hr), step_generate_calls.
    rewrite (seller_calls_on_same (active_sessions (step c w)) (active_sessions w))
      by (intros sid; now apply step_relay_dom).
    destruct c as [sid data | sid data | params | sid result]; cbn [seller_calls_on];
      try discriminate Hc; [reflexivity |].
    destruct (active_sessions w !! sid); lia.
Qed.

Lemma one_generation_call_per_seller_message_witness :
  forallb is_relay
    [OnSellerMessage "s1" {["content" := "hi"]};
     OnUserSideMessage "s1" {["content" := "final offer 5500"]};
     OnSellerMessage "s2" {["content" := "hi"]};
     OnSellerMessage "s1" {["content" := "ok deal"]}] = true /\
  generate_calls
    (run [OnSellerMessage "s1" {["content" := "hi"]};
          OnUserSideMessage "s1" {["content" := "final offer 5500"]};
          OnSellerMessage "s2" {["content" := "hi"]};
          OnSellerMessage "s1" {["content" := "ok deal"]}]
       (live None)) = 2%nat.
Proof.
  split; [reflexivity |].
  destruct (one_generation_call_per_seller_message (live None)) as [_ H].
  rewrite H by reflexivity. reflexivity.
Defined.

(** ** What the service reads of the history *)

Lemma filter_none {A} (f : A -> bool) l :
  Forall (fun x => f x = false) l -> List.filter f l = [].
Proof.
  induction 1 as [| x l Hx _ IH]; [reflexivity |]. cbn. now rewrite Hx.
Qed.

Lemma last_seller_split before m after :
  GeminiAIService.is_seller m = true ->
  Forall (fun x => GeminiAIService.is_seller x = false) after ->
  last_seller (before ++ m :: after) = Some m.
Proof.
  intros Hm Ha. unfold last_seller.
  rewrite List.filter_app. cbn. rewrite Hm, (filter_none _ _ Ha).
  apply last_snoc.
Qed.

Lemma last_seller_single m :
  GeminiAIService.is_seller m = true -> last_seller [m] = Some m.
Proof. intros Hm. unfold last_seller. cbn. now rewrite Hm. Qed.

Lemma last_seller_recent old recent m :
  m ∈ recent -> GeminiAIService.is_seller m = true ->
  last_seller (old ++ recent) = last_seller recent.
Proof.
  intros Hin Hm. unfold last_seller. rewrite List.filter_app, last_app.
  destruct (last (List.filter GeminiAIService.is_seller recent)) eqn:E; [reflexivity |].
  apply last_None in E.
  assert (Hf : In m (List.filter GeminiAIService.is_seller recent)).
  { apply List.filter_In. split; [now apply list_elem_of_In | exact Hm]. }
  rewrite E in Hf. destruct Hf.
Qed.

Lemma fallback_by_last_seller approach tp h1 h2 product :
  ChatMessage.content <$> last_seller h1 = ChatMessage.content <$> last_seller h2 ->
  GeminiAIService._get_fallback_response approach tp h1 product
    = GeminiAIService._get_fallback_response approach tp h2 product.
Proof.
  unfold last_seller, GeminiAIService._get_fallback_response. intros H.
  destruct (last (List.filter GeminiAIService.is_seller h1)) as [m1 |],
           (last (List.filter GeminiAIService.is_seller h2)) as [m2 |];
    try discriminate H; [| reflexivity].
  cbn in H. injection H as ->. reflexivity.
Qed.

(** X10. The keyword fallback reads one thing of the history: the text
    of the latest seller message.  Whatever precedes that message and
    whatever buyer-side messages follow it, however many messages there
    are and whoever sent them, the reply is the one for a history that
    holds this message alone; and two seller messages with the same text
    get the same reply. *)
Theorem fallback_reads_the_latest_seller_message approach tp before m after product :
  GeminiAIService.is_seller m = true ->
  Forall (fun x => GeminiAIService.is_seller x = false) after ->
  GeminiAIService._get_fallback_response approach tp (before ++ m :: after) product
    = GeminiAIService._get_fallback_response approach tp [m] product /\
  (forall m', GeminiAIService.is_seller m' = true ->
     ChatMessage.content m' = ChatMessage.content m ->
     GeminiAIService._get_fallback_response approach tp [m'] product
       = GeminiAIService._get_fallback_response approach tp [m] product).
Proof.
  intros Hm Ha. split.
  - apply fallback_by_last_seller.
    now rewrite (last_seller_split before m after Hm Ha), (last_seller_single m Hm).
  - intros m' Hm' Hc. apply fallback_by_last_seller.
    rewrite (last_seller_single m' Hm'), (last_seller_single m Hm).
    cbn. now rewrite Hc.
Qed.

Lemma fallback_reads_the_latest_seller_message_witness :
  GeminiAIService._get_fallback_response (AStr "assertive") 5000
    [ChatMessage.mk "a" "s1" "seller" "hello" 1 "human";
     ChatMessage.mk "b" "s1" "ai" "hi, would 5000 do?" 2 "ai";
     ChatMessage.mk "c" "s1" "seller" "what amount exactly?" 3 "human";
     ChatMessage.mk "d" "s1" "user" "no lower than that" 4 "override"]
    (Some phone)
    = Ok "Based on market research, ₹5,000 is what I can offer. It's competitive and fair.".
Proof.
  destruct (fallback_reads_the_latest_seller_message (AStr "assertive") 5000
              [ChatMessage.mk "a" "s1" "seller" "hello" 1 "human";
               ChatMessage.mk "b" "s1" "ai" "hi, would 5000 do?" 2 "ai"]
              (ChatMessage.mk "c" "s1" "seller" "what amount exactly?" 3 "human")
              [ChatMessage.mk "d" "s1" "user" "no lower than that" 4 "override"]
              (Some phone) eq_refl) as [H _].
  - repeat constructor.
  - cbn [app] in H. rewrite H. reflexivity.
Defined.

Lemma last_n_recent {A} (old recent : list A) n :
  (n <= length recent)%nat -> Py.last_n n (old ++ recent) = Py.last_n n recent.
Proof.
  intros H. unfold Py.last_n. rewrite length_app.
  replace (length old + length recent - n)%nat
    with (length old + (length recent - n))%nat by lia.
  apply drop_app_add.
Qed.

Lemma context_by_window approach tp mb h1 h2 product :
  Py.last_n 6 h1 = Py.last_n 6 h2 ->
  ChatMessage.content <$> last_seller h1 = ChatMessage.content <$> last_seller h2 ->
  GeminiAIService._build_negotiation_context approach tp mb h1 product
    = GeminiAIService._build_negotiation_context approach tp mb h2 product.
Proof.
  unfold last_seller, GeminiAIService._build_negotiation_context. intros Hw H.
  rewrite Hw.
  destruct (last (List.filter GeminiAIService.is_seller h1)) as [m1 |],
           (last (List.filter GeminiAIService.is_seller h2)) as [m2 |];
    try discriminate H; [| reflexivity].
  cbn in H. injection H as ->. reflexivity.
Qed.

(** X11. The prompt is built from a bounded window of the history.
    When the six most recent messages include a seller message, nothing
    older reaches the model: the prompt for the whole history is the
    prompt for those recent messages alone.  In general the prompt is
    fixed by the last six messages and the text of the latest seller
    message, which is quoted even when it is older than the window. *)
Theorem context_is_windowed approach tp mb old recent product :
  (6 <= length recent)%nat ->
  (forall m, m ∈ recent -> GeminiAIService.is_seller m = true ->
     GeminiAIService._build_negotiation_context approach tp mb (old ++ recent) product
       = GeminiAIService._build_negotiation_context approach tp mb recent product) /\
  (forall old', ChatMessage.content <$> last_seller (old ++ recent)
                  = ChatMessage.content <$> last_seller (old' ++ recent) ->
     GeminiAIService._build_negotiation_context approach tp mb (old ++ recent) product
       = GeminiAIService._build_negotiation_context approach tp mb (old' ++ recent) product).
Proof.
  intros Hlen. split.
  - intros m Hin Hm. apply context_by_window.
    + now apply last_n_recent.
    + now rewrite (last_seller_recent old recent m Hin Hm).
  - intros old' H. apply context_by_window; [| exact H].
    now rewrite !last_n_recent.
Qed.

Lemma context_is_windowed_witness :
  (6 <= length recent_six)%nat /\
  GeminiAIService._build_negotiation_context DIPLOMATIC 5000 6000
    (older_two ++ recent_six) (Some phone)
    = GeminiAIService._build_negotiation_context DIPLOMATIC 5000 6000
        recent_six (Some phone).
Proof.
  assert (H : (6 <= length recent_six)%nat) by (cbn; lia).
  split; [exact H |].
  destruct (context_is_windowed DIPLOMATIC 5000 6000 older_two recent_six (Some phone) H)
    as [Hw _].
  apply (Hw (ChatMessage.mk "d" "s1" "seller" "6200 is my price" 4 "human")).
  - unfold recent_six. set_solver.
  - reflexivity.
Defined.

(** ** The counter offer in binary64 *)

Lemma round53_small n : Z.abs n < 2 ^ 53 -> Py.round53 n = n.
Proof.
  intros H. unfold Py.round53.
  destruct (Z.ltb_spec (Z.abs n) (2 ^ 53)) as [_ | Hge]; [reflexivity | lia].
Qed.

(** For a large positive [a], [round53 a] is a multiple of [2^e]
    between the two multiples that enclose [a], and [2^e] is small
    against [a]. *)
Lemma round53_large a :
  2 ^ 53 <= a ->
  exists e, 1 <= e /\ 2 ^ e * 2 ^ 52 <= a /\
    a - 2 ^ e < Py.round53 a <= a + 2 ^ e.
Proof.
  intros Ha.
  assert (Hpos : 0 < a) by (pose proof (Z.pow_pos_nonneg 2 53); lia).
  assert (Hlog : 53 <= Z.log2 a).
  { rewrite <- (Z.log2_pow2 53) by lia. now apply Z.log2_le_mono. }
  unfold Py.round53. rewrite (Z.abs_eq a) by lia.
  destruct (Z.ltb_spec a (2 ^ 53)) as [Hlt | _]; [lia |].
  set (e := Z.log2 a - 52).
  assert (He : 1 <= e) by (subst e; lia).
  assert (H2e : 0 < 2 ^ e) by (apply Z.pow_pos_nonneg; lia).
  assert (Hsplit : 2 ^ e * 2 ^ 52 = 2 ^ Z.log2 a).
  { rewrite <- Z.pow_add_r by lia. f_equal. subst e. lia. }
  destruct (Z.log2_spec a Hpos) as [Hlo _].
  exists e. split; [exact He |]. split; [lia |].
  rewrite (Z.sgn_pos a Hpos), Z.mul_1_l.
  pose proof (Z.div_mod a (2 ^ e) ltac:(lia)) as Hdm.
  pose proof (Z.mod_pos_bound a (2 ^ e) H2e) as Hmod.
  set (q := a / 2 ^ e) in *. set (r := a mod 2 ^ e) in *.
  destruct ((2 ^ (e - 1) <? r) || (r =? 2 ^ (e - 1)) && Z.odd q); nia.
Qed.

Lemma round53_abs_le n : Z.abs (Py.round53 n) <= 2 * Z.abs n.
Proof.
  destruct (Z.lt_ge_cases (Z.abs n) (2 ^ 53)) as [Hs | Hl].
  - rewrite (round53_small n Hs). lia.
  - assert (Hodd : Py.round53 n = Z.sgn n * Py.round53 (Z.abs n)).
    { unfold Py.round53. rewrite Z.abs_idemp.
      destruct (Z.ltb_spec (Z.abs n) (2 ^ 53)) as [Hlt | _]; [lia |].
      assert (Habs : 0 < Z.abs n) by (pose proof (Z.pow_pos_nonneg 2 53); lia).
      rewrite (Z.sgn_pos (Z.abs n) Habs), Z.mul_1_l. reflexivity. }
    destruct (round53_large (Z.abs n) Hl) as (e & He & Hsmall & Hlo & Hhi).
    assert (H2e : 0 < 2 ^ e) by (apply Z.pow_pos_nonneg; lia).
    assert (H252 : 1 <= 2 ^ 52) by (pose proof (Z.pow_pos_nonneg 2 52); lia).
    assert (Hle : 2 ^ e <= Z.abs n) by nia.
    rewrite Hodd, Z.abs_mul.
    assert (Hsg : Z.abs (Z.sgn n) <= 1) by (destruct n; cbn; lia).
    assert (Hr : 0 <= Py.round53 (Z.abs n)) by lia.
    rewrite (Z.abs_eq (Py.round53 (Z.abs n))) by exact Hr. nia.
Qed.

Lemma int_mul_1_15_defined x :
  Z.abs x < 2 ^ 53 -> exists s, Py.int_mul_1_15 x = Some s.
Proof.
  intros Hx. unfold Py.int_mul_1_15. rewrite (round53_small x Hx).
  assert (Hbig : 2 ^ 107 < 2 ^ 1024) by (apply Z.pow_lt_mono_r; lia).
  assert (H53 : 2 ^ 53 * 2 ^ 53 * 2 = 2 ^ 107) by reflexivity.
  assert (Hm : Py.m_1_15 < 2 ^ 53) by reflexivity.
  assert (Hm0 : 0 < Py.m_1_15) by reflexivity.
  assert (H1 : Py.float_overflows x = false).
  { unfold Py.float_overflows. apply Z.leb_gt.
    assert (2 ^ 53 < 2 ^ 1024) by (apply Z.pow_lt_mono_r; lia). lia. }
  rewrite H1.
  pose proof (round53_abs_le (x * Py.m_1_15)) as Hr.
  assert (Hq : Z.abs (Py.round53 (x * Py.m_1_15) ÷ 2 ^ 52) < 2 ^ 1024).
  { pose proof (Z.quot_abs (Py.round53 (x * Py.m_1_15)) (2 ^ 52) ltac:(lia)) as Hqa.
    rewrite <- Hqa.
    assert (H252 : Z.abs (2 ^ 52) = 2 ^ 52) by reflexivity. rewrite H252.
    assert (Hle : Z.abs (Py.round53 (x * Py.m_1_15)) ÷ 2 ^ 52
                  <= Z.abs (Py.round53 (x * Py.m_1_15))).
    { apply Z.quot_le_upper_bound; [lia |].
      assert (1 <= 2 ^ 52) by (pose proof (Z.pow_pos_nonneg 2 52); lia). nia. }
    rewrite Z.abs_mul in Hr. nia. }
  assert (H2 : Py.float_overflows (Py.round53 (x * Py.m_1_15) ÷ 2 ^ 52) = false).
  { unfold Py.float_overflows. apply Z.leb_gt. exact Hq. }
  rewrite H2. eauto.
Qed.

Lemma int_mul_1_15_ge x :
  0 <= x < 2 ^ 53 -> exists s, Py.int_mul_1_15 x = Some s /\ x <= s.
Proof.
  intros [Hx0 Hx].
  assert (H252 : 2 ^ 52 = 4503599627370496) by reflexivity.
  assert (H253 : 2 ^ 53 = 9007199254740992) by reflexivity.
  assert (Hmv : Py.m_1_15 = 5179139571476070) by reflexivity.
  destruct (int_mul_1_15_defined x ltac:(lia)) as [s Hs].
  exists s. split; [exact Hs |].
  unfold Py.int_mul_1_15 in Hs. rewrite (round53_small x ltac:(lia)) in Hs.
  destruct (Py.float_overflows x); [discriminate |].
  destruct (Py.float_overflows _); [discriminate |].
  injection Hs as <-.
  assert (Hge : x * 2 ^ 52 <= Py.round53 (x * Py.m_1_15)).
  { destruct (Z.lt_ge_cases (x * Py.m_1_15) (2 ^ 53)) as [Hsm | Hlg].
    - rewrite round53_small by lia. lia.
    - destruct (round53_large _ Hlg) as (e & He & Hsmall & Hlo & _).
      assert (H2e : 0 < 2 ^ e) by (apply Z.pow_pos_nonneg; lia).
      assert (2 ^ e < 2 * x) by nia. nia. }
  rewrite Z.quot_div_nonneg by lia.
  apply Z.div_le_lower_bound; lia.
Qed.

(** ** The replies of the fallback *)

(** Case analysis on the keyword tests of the chain. *)
Ltac keyword_chain :=
  repeat match goal with
         | |- context [if ?b then _ else _] => destruct b
         end.

Lemma fallback_total approach tp chat_history p :
  Z.abs tp < 2 ^ 53 ->
  exists text,
    GeminiAIService._get_fallback_response approach tp chat_history (Some p) = Ok text.
Proof.
  intros Hx. destruct (int_mul_1_15_defined tp Hx) as [scaled Hs].
  unfold GeminiAIService._get_fallback_response. rewrite Hs.
  destruct (last (List.filter GeminiAIService.is_seller chat_history)) as [m |];
    destruct (GeminiAIService.to_enum approach); keyword_chain; eexists; reflexivity.
Qed.

(** X12. With a product at hand and a target price below 2^53 in
    magnitude, the keyword fallback always returns a text: no history,
    empty or not, and no approach makes it raise; so does
    [generate_response] when no client is configured. *)
Theorem fallback_returns_text approach tp mb chat_history p :
  Z.abs tp < 2 ^ 53 ->
  (exists text,
     GeminiAIService._get_fallback_response approach tp chat_history (Some p) = Ok text) /\
  (exists text,
     GeminiAIService.generate_response (GeminiAIService.mk None) approach tp mb
       chat_history (Some p) = Ok text).
Proof.
  intros Hx. split; [now apply fallback_total |].
  unfold GeminiAIService.generate_response, GeminiAIService.call_fallback_response.
  cbn [GeminiAIService.model]. now apply fallback_total.
Qed.

Lemma fallback_returns_text_witness :
  Z.abs 5000 < 2 ^ 53 /\
  exists text,
    GeminiAIService._get_fallback_response (AStr "considerate") 5000
      [ChatMessage.mk "a" "s1" "seller" "sorry, cannot go that low" 1 "human"]
      (Some phone) = Ok text.
Proof.
  assert (H : Z.abs 5000 < 2 ^ 53) by reflexivity.
  split; [exact H |].
  apply (fallback_returns_text (AStr "considerate") 5000 6000
           [ChatMessage.mk "a" "s1" "seller" "sorry, cannot go that low" 1 "human"]
           phone H).
Defined.

(** X13. The counter offer is [min(int(target * 1.15), target + 5000)]
    and stays within 5000 above the target.  When the latest seller
    message is ASCII text and a rejection (it has none of the greeting
    or price keywords and one of no, cannot, firm, minimum) and the
    target price is a non-negative integer below 2^53, then
    [int(target * 1.15)] is defined, the fallback replies, with or
    without a product, by the rejection text of the approach quoting the
    minimum of that value and target + 5000, and the quoted amount lies
    between target and target + 5000.  The maximum budget is not
    consulted. *)
Theorem counter_offer_bounds approach tp chat_history m product :
  last_seller chat_history = Some m ->
  is_ascii (ChatMessage.content m) = true ->
  topic_of (Py.lower (ChatMessage.content m)) = Rejection ->
  0 <= tp < 2 ^ 53 ->
  exists scaled,
    Py.int_mul_1_15 tp = Some scaled /\
    GeminiAIService._get_fallback_response approach tp chat_history product
      = Ok (rejection_reply (GeminiAIService.to_enum approach)
              (Z.min scaled (tp + 5000))) /\
    tp <= Z.min scaled (tp + 5000) <= tp + 5000.
Proof.
  intros Hlast _ Htopic Htp.
  destruct (int_mul_1_15_ge tp Htp) as (scaled & Hs & Hge).
  exists scaled. split; [exact Hs |]. split; [| lia].
  unfold last_seller in Hlast.
  unfold GeminiAIService._get_fallback_response. rewrite Hlast, Hs.
  revert Htopic. unfold topic_of.
  keyword_chain; try discriminate; intros _.
  now destruct (GeminiAIService.to_enum approach).
Qed.

Lemma counter_offer_bounds_witness :
  is_ascii "Sorry, 6200 is my minimum" = true /\
  topic_of (Py.lower "Sorry, 6200 is my minimum") = Rejection /\
  Py.int_mul_1_15 5000 = Some 5750 /\
  GeminiAIService._get_fallback_response (AStr "diplomatic") 5000
    [ChatMessage.mk "a" "s1" "seller" "Sorry, 6200 is my minimum" 1 "human"] None
    = Ok "I appreciate your position. Could we perhaps meet at ₹5,750? That would really help both of us.".
Proof.
  split; [reflexivity |]. split; [reflexivity |].
  destruct (counter_offer_bounds (AStr "diplomatic") 5000
              [ChatMessage.mk "a" "s1" "seller" "Sorry, 6200 is my minimum" 1 "human"]
              (ChatMessage.mk "a" "s1" "seller" "Sorry, 6200 is my minimum" 1 "human")
              None eq_refl eq_refl eq_refl) as (scaled & Hs & Hreply & _).
  - split; [lia | reflexivity].
  - assert (E : scaled = 5750).
    { assert (H0 : Py.int_mul_1_15 5000 = Some 5750) by (vm_compute; reflexivity).
      rewrite H0 in Hs. now injection Hs. }
    subst scaled. split; [exact Hs |]. rewrite Hreply. reflexivity.
Defined.

(** The counter offer of the sample above is 5750. *)
Example counter_offer_5000 :
  GeminiAIService._get_fallback_response (AStr "diplomatic") 5000
    [ChatMessage.mk "a" "s1" "seller" "Sorry, 6200 is my minimum" 1 "human"] None
    = Ok (rejection_reply DIPLOMATIC 5750).
Proof. vm_compute. reflexivity. Qed.

(** X14. Without a product the fallback fails exactly where its reply
    would name the seller.  For a target price below 2^53 in magnitude
    and [product] [None]: the opening reply (no seller message yet)
    raises [AttributeError] on [seller_name]; and when the latest seller
    message is ASCII text, the reply to a greeting raises the same
    error while every other reply is returned as with a product. *)
Theorem fallback_without_product approach tp chat_history :
  Z.abs tp < 2 ^ 53 ->
  match last_seller chat_history with
  | None =>
      GeminiAIService._get_fallback_response approach tp chat_history None
        = Raise (AttributeError "seller_name")
  | Some m =>
      is_ascii (ChatMessage.content m) = true ->
      match topic_of (Py.lower (ChatMessage.content m)) with
      | Greeting =>
          GeminiAIService._get_fallback_response approach tp chat_history None
            = Raise (AttributeError "seller_name")
      | _ =>
          exists text,
            GeminiAIService._get_fallback_response approach tp chat_history None = Ok text /\
            forall p, GeminiAIService._get_fallback_response approach tp chat_history (Some p)
                        = Ok text
      end
  end.
Proof.
  intros Hx. destruct (int_mul_1_15_defined tp Hx) as [scaled Hs].
  unfold last_seller, GeminiAIService._get_fallback_response, topic_of. rewrite Hs.
  destruct (last (List.filter GeminiAIService.is_seller chat_history)) as [m |].
  - intros _. keyword_chain; destruct (GeminiAIService.to_enum approach);
      first [reflexivity | eexists; split; [reflexivity | intros p; reflexivity]].
  - now destruct (GeminiAIService.to_enum approach).
Qed.

Lemma fallback_without_product_witness :
  Z.abs 5000 < 2 ^ 53 /\
  is_ascii "hello, still interested?" = true /\
  GeminiAIService._get_fallback_response (AStr "assertive") 5000
    [ChatMessage.mk "a" "s1" "seller" "hello, still interested?" 1 "human"] None
    = Raise (AttributeError "seller_name").
Proof.
  assert (H : Z.abs 5000 < 2 ^ 53) by reflexivity.
  split; [exact H |]. split; [reflexivity |].
  exact (fallback_without_product (AStr "assertive") 5000
           [ChatMessage.mk "a" "s1" "seller" "hello, still interested?" 1 "human"] H
           eq_refl).
Defined.

(** X15. Three replies are fixed texts.  When the latest seller message
    is ASCII text and is an acceptance, is about logistics or is about
    the product's condition, the fallback returns the same text for
    every approach, target price and product; for the condition inquiry
    that text holds the placeholder of the target price, braces and all,
    since the source's string is not an f-string. *)
Theorem fixed_replies_ignore_the_parameters chat_history m :
  last_seller chat_history = Some m ->
  is_ascii (ChatMessage.content m) = true ->
  match topic_of (Py.lower (ChatMessage.content m)) with
  | Acceptance | Logistics =>
      forall approach tp product approach' tp' product',
        GeminiAIService._get_fallback_response approach tp chat_history product
          = GeminiAIService._get_fallback_response approach' tp' chat_history product' /\
        is_ok (GeminiAIService._get_fallback_response approach tp chat_history product) = true
  | ConditionTalk =>
      forall approach tp product,
        GeminiAIService._get_fallback_response approach tp chat_history product
          = Ok condition_reply
  | _ => True
  end.
Proof.
  intros Hlast _. unfold last_seller in Hlast.
  unfold GeminiAIService._get_fallback_response, topic_of. rewrite Hlast.
  keyword_chain; try exact I; intros; try split; reflexivity.
Qed.

Lemma fixed_replies_ignore_the_parameters_witness :
  is_ascii "It is in working order" = true /\
  topic_of (Py.lower "It is in working order") = ConditionTalk /\
  GeminiAIService._get_fallback_response (AStr "assertive") 5000
    [ChatMessage.mk "a" "s1" "seller" "It is in working order" 1 "human"] (Some phone)
    = Ok condition_reply.
Proof.
  split; [reflexivity |]. split; [reflexivity |].
  exact (fixed_replies_ignore_the_parameters
           [ChatMessage.mk "a" "s1" "seller" "It is in working order" 1 "human"]
           (ChatMessage.mk "a" "s1" "seller" "It is in working order" 1 "human")
           eq_refl eq_refl (AStr "assertive") 5000 (Some phone)).
Defined.

(** ** The service inside a seller turn *)

(** X16. With no client configured, a seller turn always gets its
    agent reply, provided the session's product is in the catalogue and
    the target price is below 2^53 in magnitude: the generation call
    returns the fallback's text, which depends on the history through
    this very seller message alone, and the history grows by the seller
    Message and the agent Message carrying that text. *)
Theorem unconfigured_service_always_replies w sid s data p :
  active_sessions w !! sid = Some s ->
  gemini w = None ->
  JSONDatabase.products (db w) !! NegotiationSession.product_id s = Some p ->
  Z.abs (NegotiationParams.target_price (NegotiationSession.user_params s)) < 2 ^ 53 ->
  exists text,
    GeminiAIService._get_fallback_response
      (NegotiationParams.approach (NegotiationSession.user_params s))
      (NegotiationParams.target_price (NegotiationSession.user_params s))
      [seller_message sid data w] (Some p) = Ok text /\
    generation sid data s w = Ok text /\
    NegotiationSession.messages <$>
      active_sessions (snd (handle_seller_message sid data w)) !! sid
      = Some (NegotiationSession.messages s
                ++ [seller_message sid data w; ai_message sid text w]).
Proof.
  intros H Hg Hp Htp.
  destruct (fallback_total
              (NegotiationParams.approach (NegotiationSession.user_params s))
              (NegotiationParams.target_price (NegotiationSession.user_params s))
              [seller_message sid data w] p Htp) as [text Htext].
  exists text. split; [exact Htext |].
  assert (Hgen : generation sid data s w = Ok text).
  { unfold generation, ai_service. rewrite Hg, Hp. cbn [fmap option_fmap option_map].
    unfold GeminiAIService.generate_response, GeminiAIService.call_fallback_response.
    cbn [GeminiAIService.model]. rewrite <- Htext.
    transitivity (GeminiAIService._get_fallback_response
                    (AEnum (GeminiAIService.to_enum
                              (NegotiationParams.approach (NegotiationSession.user_params s))))
                    (NegotiationParams.target_price (NegotiationSession.user_params s))
                    [seller_message sid data w] (Some p)).
    - apply fallback_by_last_seller.
      now rewrite (last_seller_split (NegotiationSession.messages s)
                     (seller_message sid data w) []), last_seller_single.
    - unfold GeminiAIService._get_fallback_response. cbn [GeminiAIService.to_enum].
      reflexivity. }
  split; [exact Hgen |].
  rewrite (seller_active _ _ _ _ H). unfold after_seller. rewrite Hgen.
  cbn [snd active_sessions]. rewrite lookup_insert_eq. cbn.
  now rewrite <- app_assoc.
Qed.

Lemma unconfigured_service_always_replies_witness :
  active_sessions (live None) !! "s1" = Some sample_session /\
  exists text,
    NegotiationSession.messages <$>
      active_sessions
        (snd (handle_seller_message "s1" {["content" := "6200 is my price"]} (live None)))
        !! "s1"
    = Some [seller_message "s1" {["content" := "6200 is my price"]} (live None);
            ai_message "s1" text (live None)].
Proof.
  split; [reflexivity |].
  destruct (unconfigured_service_always_replies (live None) "s1" sample_session
              {["content" := "6200 is my price"]} phone eq_refl eq_refl eq_refl)
    as (text & _ & _ & H); [reflexivity |].
  exists text. exact H.
Defined.

(** X17. A configured service cannot answer for a product that is not
    in the catalogue.  Building the prompt fails on the missing product,
    the recovery call fails in turn, and [generate_response] raises
    [TypeError] without regard to the client; the seller turn then ends
    as a failed generation: the seller Message alone joins the history,
    and the user side is sent the relay and one error payload. *)
Theorem configured_service_needs_the_product w sid s data client :
  active_sessions w !! sid = Some s ->
  gemini w = Some client ->
  JSONDatabase.products (db w) !! NegotiationSession.product_id s = None ->
  generation sid data s w = Raise GeminiAIService.missing_product /\
  NegotiationSession.messages <$>
    active_sessions (snd (handle_seller_message sid data w)) !! sid
    = Some (NegotiationSession.messages s ++ [seller_message sid data w]) /\
  wire (snd (handle_seller_message sid data w))
    = wire w
      ++ ConnectionManager.route (manager w) UserSide sid
           (seller_payload (seller_message sid data w))
      ++ ConnectionManager.route (manager w) UserSide sid error_payload.
Proof.
  intros H Hg Hp.
  assert (Hgen : generation sid data s w = Raise GeminiAIService.missing_product).
  { unfold generation, ai_service. rewrite Hg, Hp. reflexivity. }
  split; [exact Hgen |].
  rewrite (seller_active _ _ _ _ H). unfold after_seller. rewrite Hgen.
  cbn [snd active_sessions wire]. rewrite lookup_insert_eq.
  split; [reflexivity | now rewrite <- app_assoc].
Qed.

Lemma configured_service_needs_the_product_witness :
  JSONDatabase.products
    (db (snd (start_negotiation (NegotiationParams.mk "p9" 5000 6000 (AStr "diplomatic"))
                (boot (Some steady_client)))))
    !! "p9" = None /\
  generation "m0" {["content" := "hi"]}
    (new_session (NegotiationParams.mk "p9" 5000 6000 (AStr "diplomatic"))
       (boot (Some steady_client)))
    (snd (start_negotiation (NegotiationParams.mk "p9" 5000 6000 (AStr "diplomatic"))
            (boot (Some steady_client))))
    = Raise GeminiAIService.missing_product.
Proof.
  split; [reflexivity |].
  destruct (configured_service_needs_the_product
              (snd (start_negotiation (NegotiationParams.mk "p9" 5000 6000 (AStr "diplomatic"))
                      (boot (Some steady_client))))
              "m0"
              (new_session (NegotiationParams.mk "p9" 5000 6000 (AStr "diplomatic"))
                 (boot (Some steady_client)))
              {["content" := "hi"]} steady_client eq_refl eq_refl eq_refl) as [H _].
  exact H.
Defined.

(** ** The approach argument *)

Lemma lower_upper_char c : Py.lower_char (Py.upper_char c) = Py.lower_char c.
Proof. destruct c as [[] [] [] [] [] [] [] []]; reflexivity. Qed.

Lemma lower_lower_char c : Py.lower_char (Py.lower_char c) = Py.lower_char c.
Proof. destruct c as [[] [] [] [] [] [] [] []]; reflexivity. Qed.

Lemma lower_upper s : Py.lower (Py.upper s) = Py.lower s.
Proof. induction s as [| c s IH]; [reflexivity |]. cbn. now rewrite lower_upper_char, IH. Qed.

Lemma lower_lower s : Py.lower (Py.lower s) = Py.lower s.
Proof. induction s as [| c s IH]; [reflexivity |]. cbn. now rewrite lower_lower_char, IH. Qed.

(** X18. On ASCII text the approach is read without regard to case and
    to its type.  An ASCII string, the same string in upper case and in
    lower case select the same approach, so [generate_response] returns
    the same result for the three; and the name of a member, in lower or
    upper case, gives what the member itself gives. *)
Theorem approach_is_case_insensitive self s target_price max_budget chat_history product :
  is_ascii s = true ->
  GeminiAIService.generate_response self (AStr (Py.upper s)) target_price max_budget
    chat_history product
    = GeminiAIService.generate_response self (AStr s) target_price max_budget
        chat_history product /\
  GeminiAIService.generate_response self (AStr (Py.lower s)) target_price max_budget
    chat_history product
    = GeminiAIService.generate_response self (AStr s) target_price max_budget
        chat_history product /\
  (forall a,
     is_ascii (approach_value a) = true /\
     GeminiAIService.generate_response self (AStr (approach_value a)) target_price max_budget
       chat_history product
       = GeminiAIService.generate_response self (AEnum a) target_price max_budget
           chat_history product /\
     GeminiAIService.generate_response self (AStr (Py.upper (approach_value a))) target_price
       max_budget chat_history product
       = GeminiAIService.generate_response self (AEnum a) target_price max_budget
           chat_history product).
Proof.
  intros _. unfold GeminiAIService.generate_response, GeminiAIService.to_enum.
  rewrite lower_upper, lower_lower. repeat split; now destruct a.
Qed.

Lemma approach_is_case_insensitive_witness :
  is_ascii "Considerate" = true /\
  GeminiAIService.generate_response (GeminiAIService.mk None) (AStr "CONSIDERATE") 5000 6000
    [] (Some phone)
    = GeminiAIService.generate_response (GeminiAIService.mk None) (AStr "Considerate") 5000 6000
        [] (Some phone).
Proof.
  split; [reflexivity |].
  destruct (approach_is_case_insensitive (GeminiAIService.mk None) "Considerate" 5000 6000
              [] (Some phone) eq_refl) as (H & _).
  exact H.
Defined.

(** ** Message identifiers over a run *)

Lemma sorted_snoc ks n :
  StronglySorted lt ks -> Forall (fun k => (k < n)%nat) ks ->
  StronglySorted lt (ks ++ [n]).
Proof.
  induction 1 as [| k ks Hs IH Hk]; intros Hb; cbn.
  - repeat constructor.
  - apply Forall_cons in Hb as [Hkn Hb]. constructor; [now apply IH |].
    apply Forall_app. split; [exact Hk | now apply Forall_singleton].
Qed.

Lemma drawn_weaken (ks : list nat) (d d' : nat) :
  (d <= d')%nat -> Forall (fun k => (k < d)%nat) ks -> Forall (fun k => (k < d')%nat) ks.
Proof.
  intros Hd H. eapply Forall_impl; [exact H |]. cbn. intros k Hk. lia.
Qed.

(** The history of [s], extended by a message whose identifier is the
    [d]-th draw, is in draw order up to [d']. *)
Lemma drawn_append (u : nat -> string) (d d' : nat) s m :
  (d < d')%nat ->
  ChatMessage.id m = u d ->
  (exists ks, ChatMessage.id <$> NegotiationSession.messages s = u <$> ks /\
     StronglySorted lt ks /\ Forall (fun k => (k < d)%nat) ks) ->
  exists ks, ChatMessage.id <$> NegotiationSession.messages (NegotiationSession.append m s)
               = u <$> ks /\
    StronglySorted lt ks /\ Forall (fun k => (k < d')%nat) ks.
Proof.
  intros Hd Hm (ks & Hids & Hs & Hb). exists (ks ++ [d]). cbn.
  rewrite !fmap_app, Hids. cbn. rewrite Hm. split; [reflexivity |]. split.
  - now apply sorted_snoc.
  - apply Forall_app. split; [apply (drawn_weaken ks d d'); [lia | exact Hb] |].
    now apply Forall_singleton.
Qed.

Lemma step_uuids c w : uuids (step c w) = uuids w.
Proof.
  destruct c as [sid data | sid data | params | sid result]; cbn.
  - destruct (active_sessions w !! sid) as [s |] eqn:H.
    + now rewrite (user_active _ _ _ _ H).
    + now rewrite (user_absent _ _ _ H).
  - destruct (active_sessions w !! sid) as [s |] eqn:H.
    + rewrite (seller_active _ _ _ _ H). cbn. unfold after_seller.
      now destruct (generation sid data s w).
    + now rewrite (seller_absent _ _ _ H).
  - destruct (JSONDatabase.products (db w) !! NegotiationParams.product_id params) eqn:H.
    + now rewrite (start_found _ _ _ H).
    + now rewrite (start_not_found _ _ H).
  - destruct (active_sessions w !! sid) as [s |] eqn:H.
    + now rewrite (end_active _ _ _ _ H).
    + now rewrite (end_absent _ _ _ H).
Qed.

(** A session that the call did not touch keeps its identifiers, which
    stay among the draws made. *)
Ltac same_ids Hw :=
  match goal with
  | |- _ !! ?sid0 = Some ?s0 -> _ =>
      let H0 := fresh in
      intros H0; destruct (Hw sid0 s0 H0) as (ks & Hids & Hs & Hb);
      exists ks; split; [exact Hids |]; split; [exact Hs |];
      eapply drawn_weaken; [| exact Hb]; cbn; lia
  end.

Lemma step_ids c w : ids_in_draw_order w -> ids_in_draw_order (step c w).
Proof.
  intros Hw. unfold ids_in_draw_order. rewrite step_uuids.
  destruct c as [sid data | sid data | params | sid result]; cbn [step]; intros sid0 s0.
  - destruct (active_sessions w !! sid) as [s |] eqn:H.
    + rewrite (user_active _ _ _ _ H). unfold after_user. cbn [snd active_sessions uuid_draws].
      rewrite lookup_insert. case_decide as Hd.
      * intros [= <-].
        apply (drawn_append _ (uuid_draws w)); [lia | reflexivity | now apply (Hw sid)].
      * same_ids Hw.
    + rewrite (user_absent _ _ _ H). apply Hw.
  - destruct (active_sessions w !! sid) as [s |] eqn:H.
    + rewrite (seller_active _ _ _ _ H). unfold after_seller. cbn [snd].
      destruct (generation sid data s w) as [text | e]; cbn [active_sessions uuid_draws].
      * rewrite lookup_insert. case_decide as Hd.
        -- intros [= <-].
           apply (drawn_append _ (S (uuid_draws w))); [lia | reflexivity |].
           apply (drawn_append _ (uuid_draws w)); [lia | reflexivity | now apply (Hw sid)].
        -- rewrite lookup_insert_ne by exact Hd. same_ids Hw.
      * rewrite lookup_insert. case_decide as Hd.
        -- intros [= <-].
           apply (drawn_append _ (uuid_draws w)); [lia | reflexivity | now apply (Hw sid)].
        -- same_ids Hw.
    + rewrite (seller_absent _ _ _ H). apply Hw.
  - assert (Hafter : snd (start_negotiation params w) = after_start params w).
    { destruct (JSONDatabase.products (db w) !! NegotiationParams.product_id params) eqn:H.
      - now rewrite (start_found _ _ _ H).
      - now rewrite (start_not_found _ _ H). }
    rewrite Hafter. unfold after_start. cbn [active_sessions uuid_draws].
    rewrite lookup_insert. case_decide as Hd.
    + intros [= <-]. exists []. repeat split; constructor.
    + same_ids Hw.
  - destruct (active_sessions w !! sid) as [s |] eqn:H.
    + rewrite (end_active _ _ _ _ H). unfold after_end. cbn [snd active_sessions uuid_draws].
      rewrite lookup_delete. case_decide as Hd; [discriminate |].
      rewrite lookup_insert_ne by exact Hd. same_ids Hw.
    + rewrite (end_absent _ _ _ H). apply Hw.
Qed.

Lemma run_ids cs : forall w, ids_in_draw_order w -> ids_in_draw_order (run cs w).
Proof.
  induction cs as [| c cs IH]; intros w Hw; [exact Hw |].
  cbn. apply IH. now apply step_ids.
Qed.

Lemma run_uuids cs : forall w, uuids (run cs w) = uuids w.
Proof.
  induction cs as [| c cs IH]; intros w; [reflexivity |].
  cbn. now rewrite IH, step_uuids.
Qed.

Lemma sorted_lt_NoDup ks : StronglySorted lt ks -> NoDup ks.
Proof.
  induction 1 as [| k ks Hs IH Hk]; constructor; [| exact IH].
  intros Hin. rewrite Forall_forall in Hk. specialize (Hk k Hin). lia.
Qed.

(** X19. Message identifiers are as unique as the UUID generator.  Each
    Message takes a fresh draw of [uuid4] as it is created, so when the
    generator never repeats a value, then after any run of calls no two
    messages of a session's history share an identifier. *)
Theorem message_ids_are_unique w cs sid s :
  (forall i j, uuids w i = uuids w j -> i = j) ->
  ids_in_draw_order w ->
  active_sessions (run cs w) !! sid = Some s ->
  NoDup (ChatMessage.id <$> NegotiationSession.messages s).
Proof.
  intros Hinj Hw H.
  destruct (run_ids cs w Hw sid s H) as (ks & Hids & Hs & _).
  rewrite Hids, run_uuids. apply NoDup_fmap_2; [exact Hinj | now apply sorted_lt_NoDup].
Qed.

Lemma sample_uuids_inj i j : sample_uuids i = sample_uuids j -> i = j.
Proof.
  unfold sample_uuids, Py.str_nat. intros H. injection H as H.
  change (NilZero.string_of_uint (N.to_uint (N.of_nat i))
          = NilZero.string_of_uint (N.to_uint (N.of_nat j))) in H.
  apply Nat2N.inj, DecimalN.Unsigned.to_uint_inj.
  assert (Hu : forall n, NilZero.uint_of_string (NilZero.string_of_uint (N.to_uint n))
                         = Some (N.to_uint n)).
  { intros n. apply NilZero.usu. destruct n as [| p]; [discriminate |].
    apply DecimalPos.Unsigned.to_uint_nonnil. }
  pose proof (Hu (N.of_nat i)) as Hi. rewrite H, Hu in Hi. now injection Hi.
Qed.

Lemma message_ids_are_unique_witness :
  NoDup
    (ChatMessage.id <$>
       [seller_message "s1" {["content" := "hi"]} (live None);
        ai_message "s1"
          "Hi there Ravi! Yes, I'm interested in your listing. The item looks great. Would ₹5,000 work for you?"
          (live None)]).
Proof.
  apply (message_ids_are_unique (live None)
           [OnSellerMessage "s1" {["content" := "hi"]}] "s1"
           (NegotiationSession.mk "s1" "p1" sample_params "active" 0
              [seller_message "s1" {["content" := "hi"]} (live None);
               ai_message "s1"
                 "Hi there Ravi! Yes, I'm interested in your listing. The item looks great. Would ₹5,000 work for you?"
                 (live None)]
              JNull JNull None)).
  - apply sample_uuids_inj.
  - intros sid s Hs. cbn in Hs.
    destruct (decide (sid = "s1")) as [-> | Hne].
    + rewrite lookup_singleton_eq in Hs. injection Hs as <-.
      exists []. repeat split; constructor.
    + rewrite lookup_singleton_ne in Hs by congruence. discriminate Hs.
  - vm_compute. reflexivity.
Defined.

(** ** Deliveries over a run *)

Lemma step_relay_recorded c w d m :
  is_relay c = true ->
  d ∈ delivered_since w (step c w) ->
  carries (snd d) m ->
  exists s', active_sessions (step c w) !! ChatMessage.session_id m = Some s' /\
    m ∈ NegotiationSession.messages s'.
Proof.
  intros Hc. unfold delivered_since.
  destruct c as [sid data | sid data | params | sid result]; try discriminate Hc; cbn [step].
  - destruct (active_sessions w !! sid) as [s |] eqn:H.
    + rewrite (user_active _ _ _ _ H). unfold after_user. cbn [snd active_sessions wire].
      rewrite drop_app_length. intros Hd Hcar.
      apply elem_of_route in Hd as [_ Hp]. rewrite Hp in Hcar.
      apply carries_buyer in Hcar. subst m. cbn [ChatMessage.session_id user_message].
      rewrite lookup_insert_eq. eexists. split; [reflexivity |]. cbn. set_solver.
    + rewrite (user_absent _ _ _ H). cbn [snd]. rewrite drop_all. intros Hd.
      now apply not_elem_of_nil in Hd.
  - destruct (active_sessions w !! sid) as [s |] eqn:H.
    + rewrite (seller_active _ _ _ _ H). unfold after_seller. cbn [snd].
      destruct (generation sid data s w) as [text | e]; cbn [active_sessions wire];
        rewrite <- !app_assoc, drop_app_length, !elem_of_app; intros Hd Hcar.
      * destruct Hd as [Hd | [Hd | Hd]]; apply elem_of_route in Hd as [_ Hp];
          rewrite Hp in Hcar;
          [apply carries_seller in Hcar | apply carries_buyer in Hcar
           | apply carries_ai_response in Hcar];
          subst m; cbn [ChatMessage.session_id seller_message ai_message];
          rewrite lookup_insert_eq; (eexists; split; [reflexivity |]); cbn; set_solver.
      * destruct Hd as [Hd | Hd]; apply elem_of_route in Hd as [_ Hp]; rewrite Hp in Hcar.
        -- apply carries_seller in Hcar. subst m.
           cbn [ChatMessage.session_id seller_message].
           rewrite lookup_insert_eq. eexists. split; [reflexivity |]. cbn. set_solver.
        -- now apply carries_error in Hcar.
    + rewrite (seller_absent _ _ _ H). cbn [snd]. rewrite drop_all. intros Hd.
      now apply not_elem_of_nil in Hd.
Qed.

Lemma run_relay_wire cs : forall w,
  forallb is_relay cs = true ->
  exists new, wire (run cs w) = wire w ++ new.
Proof.
  induction cs as [| c cs IH]; intros w Hr.
  - exists []. now rewrite app_nil_r.
  - cbn in Hr. apply andb_true_iff in Hr as [Hc Hr]. cbn [run].
    destruct (IH (step c w) Hr) as [new2 H2].
    assert (Ha : exists sid, addressed c = Some sid) by (destruct c; try discriminate Hc; eauto).
    destruct Ha as [sid Ha]. destruct (step_wire c w sid Ha) as (new1 & H1 & _).
    exists (new1 ++ new2). now rewrite H2, H1, app_assoc.
Qed.

(** X20. Over a run of relay calls nothing is delivered that is not on
    record: every payload put on the wire during the run that carries a
    Message carries one that is, when the run ends, in the history of
    the active session the Message names. *)
Theorem deliveries_are_on_record cs : forall w d m,
  forallb is_relay cs = true ->
  d ∈ delivered_since w (run cs w) ->
  carries (snd d) m ->
  exists s', active_sessions (run cs w) !! ChatMessage.session_id m = Some s' /\
    m ∈ NegotiationSession.messages s'.
Proof.
  induction cs as [| c cs IH]; intros w d m Hr Hd Hcar.
  - unfold delivered_since in Hd. cbn in Hd. rewrite drop_all in Hd.
    now apply not_elem_of_nil in Hd.
  - cbn in Hr. apply andb_true_iff in Hr as [Hc Hr]. cbn [run] in *.
    assert (Ha : exists sid, addressed c = Some sid) by (destruct c; try discriminate Hc; eauto).
    destruct Ha as [sid Ha]. destruct (step_wire c w sid Ha) as (new1 & H1 & _).
    destruct (run_relay_wire cs (step c w) Hr) as [new2 H2].
    assert (Hsplit : delivered_since w (run cs (step c w))
                     = delivered_since w (step c w)
                       ++ delivered_since (step c w) (run cs (step c w))).
    { unfold delivered_since. rewrite H2, H1, <- app_assoc, !drop_app_length.
      now rewrite app_assoc, drop_app_length. }
    rewrite Hsplit in Hd. apply elem_of_app in Hd as [Hd | Hd].
    + destruct (step_relay_recorded c w d m Hc Hd Hcar) as (s1 & Hs1 & Hin).
      pose proof (run_relay_extends cs (step c w) (ChatMessage.session_id m) Hr) as He.
      rewrite Hs1 in He. destruct He as (s' & extra & Hs' & Hm & _).
      exists s'. split; [exact Hs' |]. rewrite Hm. apply elem_of_app. now left.
    + exact (IH (step c w) d m Hr Hd Hcar).
Qed.

Lemma deliveries_are_on_record_witness :
  exists s',
    active_sessions
      (run [OnUserSideMessage "s1" {["content" := "final offer 5500"]};
            OnSellerMessage "s1" {["content" := "ok deal"]}]
         (live None)) !! "s1" = Some s' /\
    user_message "s1" {["content" := "final offer 5500"]} (live None)
      ∈ NegotiationSession.messages s'.
Proof.
  apply (deliveries_are_on_record
           [OnUserSideMessage "s1" {["content" := "final offer 5500"]};
            OnSellerMessage "s1" {["content" := "ok deal"]}]
           (live None)
           (1%nat, buyer_payload (user_message "s1" {["content" := "final offer 5500"]} (live None)))
           (user_message "s1" {["content" := "final offer 5500"]} (live None))).
  - reflexivity.
  - vm_compute. left.
  - reflexivity.
Defined.
